(** * BeatGuessr buzzer mode: a shallow embedding of [backend/buzzer.py]

    The module keeps two process-wide dictionaries, [rooms] and
    [player_sessions], and registers one handler per Socket.IO event.
    Every handler is embedded as a function from the global state (and the
    requesting connection [request.sid] plus the event payload) to an
    [Outcome]: the state after the handler, the effects it performed in
    order ([emit], [join_room], [leave_room]) and the exception it raised,
    if any.  [print] calls are not modelled, and neither is the [connect]
    handler, which only prints.

    Connection identities, room codes and names are strings; Python's
    truthiness tests on them ([if not room_code], [if existing_sid:],
    [if room["current_buzzer"]:]) are kept.  Scores and [max_score] are
    unbounded integers.  [room["players"]] keeps its insertion order;
    [rooms], [player_sessions], [locked_out] and [used_song_ids] are never
    iterated and are finite maps and sets.  What the random generator
    produces is an argument of the handler that uses it. *)

From Stdlib Require Import Ascii String Sorted.
From stdpp Require Import gmap strings list fin_maps.

Local Open Scope string_scope.
Local Open Scope Z_scope.

(** ** Python values *)

(** Truthiness of a [str]: only the empty string is falsy. *)
Definition str_truthy (s : string) : bool :=
  match s with
  | EmptyString => false
  | String _ _ => true
  end.

(** [o] is the result of an expression that is either [None] or a [str];
    [if o:] takes the branch when [o] is a non-empty string. *)
Definition opt_truthy (o : option string) : bool :=
  match o with
  | None => false
  | Some s => str_truthy s
  end.

(** ** Insertion-ordered dictionaries with string keys

    [room["players"]] is iterated ([.items()], [.values()]), so the order
    of its entries is observable.  A dictionary is an association list in
    insertion order; the operations below keep keys unique. *)

Section pydict.
Context {V : Type}.

(** [d.get(k)] *)
Fixpoint dict_get (k : string) (d : list (string * V)) : option V :=
  match d with
  | [] => None
  | (k', v) :: d' => if decide (k' = k) then Some v else dict_get k d'
  end.

(** [k in d] *)
Definition dict_mem (k : string) (d : list (string * V)) : bool :=
  match dict_get k d with
  | Some _ => true
  | None => false
  end.

(** [d[k] = v]: an existing key keeps its position, a new key goes last. *)
Fixpoint dict_set (k : string) (v : V) (d : list (string * V))
  : list (string * V) :=
  match d with
  | [] => [(k, v)]
  | (k', v') :: d' =>
      if decide (k' = k) then (k, v) :: d' else (k', v') :: dict_set k v d'
  end.

(** [del d[k]] and the removal half of [d.pop(k)] *)
Fixpoint dict_del (k : string) (d : list (string * V)) : list (string * V) :=
  match d with
  | [] => []
  | (k', v') :: d' =>
      if decide (k' = k) then dict_del k d' else (k', v') :: dict_del k d'
  end.

Definition dict_keys (d : list (string * V)) : list string := d.*1.
End pydict.

(** [l.remove(x)]: drops the first occurrence; [None] stands for the
    [ValueError] Python raises when [x] does not occur. *)
Fixpoint list_remove (x : string) (l : list string) : option (list string) :=
  match l with
  | [] => None
  | y :: l' =>
      if decide (y = x) then Some l'
      else match list_remove x l' with
           | Some r => Some (y :: r)
           | None => None
           end
  end.

(** ** Data model *)

(** A song of the catalog ([songs.json]); a song is a non-empty dict, so
    it is always truthy. *)
Record Song := {
  song_id : string;
  song_title : string;
  song_artist : string;
  song_year : Z;
  song_context : string;
  song_preview_url : string;
  song_cover_url : string;
  song_album : string;
  song_spotify_url : string
}.

(** [{"name": ..., "score": ..., "connected": ...}] *)
Record Player := {
  name : string;
  score : Z;
  connected : bool
}.

Record Room := {
  host_sid : string;
  host_connected : bool;
  max_score : Z;
  players : list (string * Player);
  current_song : option Song;
  round_active : bool;
  buzz_queue : list string;
  current_buzzer : option string;
  locked_out : gset string;
  used_song_ids : gset string;
  game_started : bool;
  game_ended : bool;
  winner : option string
}.

(** The module-level globals [rooms] and [player_sessions]. *)
Record State := {
  rooms : gmap string Room;
  player_sessions : gmap string string
}.

Definition initial_state : State :=
  {| rooms := ∅; player_sessions := ∅ |}.

(** *** Field assignments [room["field"] = value] *)

Definition with_host (sid : string) (c : bool) (r : Room) : Room :=
  {| host_sid := sid; host_connected := c; max_score := max_score r;
     players := players r; current_song := current_song r;
     round_active := round_active r; buzz_queue := buzz_queue r;
     current_buzzer := current_buzzer r; locked_out := locked_out r;
     used_song_ids := used_song_ids r; game_started := game_started r;
     game_ended := game_ended r; winner := winner r |}.

Definition with_players (ps : list (string * Player)) (r : Room) : Room :=
  {| host_sid := host_sid r; host_connected := host_connected r;
     max_score := max_score r;
     players := ps; current_song := current_song r;
     round_active := round_active r; buzz_queue := buzz_queue r;
     current_buzzer := current_buzzer r; locked_out := locked_out r;
     used_song_ids := used_song_ids r; game_started := game_started r;
     game_ended := game_ended r; winner := winner r |}.

Definition with_current_song (s : option Song) (r : Room) : Room :=
  {| host_sid := host_sid r; host_connected := host_connected r;
     max_score := max_score r;
     players := players r; current_song := s;
     round_active := round_active r; buzz_queue := buzz_queue r;
     current_buzzer := current_buzzer r; locked_out := locked_out r;
     used_song_ids := used_song_ids r; game_started := game_started r;
     game_ended := game_ended r; winner := winner r |}.

Definition with_round_active (b : bool) (r : Room) : Room :=
  {| host_sid := host_sid r; host_connected := host_connected r;
     max_score := max_score r;
     players := players r; current_song := current_song r;
     round_active := b; buzz_queue := buzz_queue r;
     current_buzzer := current_buzzer r; locked_out := locked_out r;
     used_song_ids := used_song_ids r; game_started := game_started r;
     game_ended := game_ended r; winner := winner r |}.

Definition with_buzz_queue (q : list string) (r : Room) : Room :=
  {| host_sid := host_sid r; host_connected := host_connected r;
     max_score := max_score r;
     players := players r; current_song := current_song r;
     round_active := round_active r; buzz_queue := q;
     current_buzzer := current_buzzer r; locked_out := locked_out r;
     used_song_ids := used_song_ids r; game_started := game_started r;
     game_ended := game_ended r; winner := winner r |}.

Definition with_current_buzzer (b : option string) (r : Room) : Room :=
  {| host_sid := host_sid r; host_connected := host_connected r;
     max_score := max_score r;
     players := players r; current_song := current_song r;
     round_active := round_active r; buzz_queue := buzz_queue r;
     current_buzzer := b; locked_out := locked_out r;
     used_song_ids := used_song_ids r; game_started := game_started r;
     game_ended := game_ended r; winner := winner r |}.

Definition with_locked_out (s : gset string) (r : Room) : Room :=
  {| host_sid := host_sid r; host_connected := host_connected r;
     max_score := max_score r;
     players := players r; current_song := current_song r;
     round_active := round_active r; buzz_queue := buzz_queue r;
     current_buzzer := current_buzzer r; locked_out := s;
     used_song_ids := used_song_ids r; game_started := game_started r;
     game_ended := game_ended r; winner := winner r |}.

Definition with_used_song_ids (s : gset string) (r : Room) : Room :=
  {| host_sid := host_sid r; host_connected := host_connected r;
     max_score := max_score r;
     players := players r; current_song := current_song r;
     round_active := round_active r; buzz_queue := buzz_queue r;
     current_buzzer := current_buzzer r; locked_out := locked_out r;
     used_song_ids := s; game_started := game_started r;
     game_ended := game_ended r; winner := winner r |}.

Definition with_game_started (b : bool) (r : Room) : Room :=
  {| host_sid := host_sid r; host_connected := host_connected r;
     max_score := max_score r;
     players := players r; current_song := current_song r;
     round_active := round_active r; buzz_queue := buzz_queue r;
     current_buzzer := current_buzzer r; locked_out := locked_out r;
     used_song_ids := used_song_ids r; game_started := b;
     game_ended := game_ended r; winner := winner r |}.

Definition with_game_ended (b : bool) (r : Room) : Room :=
  {| host_sid := host_sid r; host_connected := host_connected r;
     max_score := max_score r;
     players := players r; current_song := current_song r;
     round_active := round_active r; buzz_queue := buzz_queue r;
     current_buzzer := current_buzzer r; locked_out := locked_out r;
     used_song_ids := used_song_ids r; game_started := game_started r;
     game_ended := b; winner := winner r |}.

Definition with_winner (w : option string) (r : Room) : Room :=
  {| host_sid := host_sid r; host_connected := host_connected r;
     max_score := max_score r;
     players := players r; current_song := current_song r;
     round_active := round_active r; buzz_queue := buzz_queue r;
     current_buzzer := current_buzzer r; locked_out := locked_out r;
     used_song_ids := used_song_ids r; game_started := game_started r;
     game_ended := game_ended r; winner := w |}.

Definition with_score (s : Z) (p : Player) : Player :=
  {| name := name p; score := s; connected := connected p |}.

Definition with_connected (c : bool) (p : Player) : Player :=
  {| name := name p; score := score p; connected := c |}.

(** [rooms[code]] now holds [r] (the room object was mutated in place). *)
Definition set_room (code : string) (r : Room) (st : State) : State :=
  {| rooms := <[code := r]> (rooms st);
     player_sessions := player_sessions st |}.

Definition set_session (sid code : string) (st : State) : State :=
  {| rooms := rooms st;
     player_sessions := <[sid := code]> (player_sessions st) |}.

Definition del_session (sid : string) (st : State) : State :=
  {| rooms := rooms st;
     player_sessions := delete sid (player_sessions st) |}.

(** ** [get_room_state]: the view sent to clients *)

Record PlayerView := {
  pv_id : string;
  pv_name : string;
  pv_score : Z;
  pv_isLockedOut : bool;
  pv_isConnected : bool
}.

(** [{"id": sid, "name": ...}], used for the current buzzer and the queue *)
Record BuzzerView := {
  bv_id : string;
  bv_name : string
}.

(** The dict built by [get_room_state]. [rv_currentSong = None] means the
    key ["currentSong"] is absent from the dict. *)
Record RoomView := {
  rv_roomCode : string;
  rv_maxScore : Z;
  rv_players : list PlayerView;
  rv_roundActive : bool;
  rv_currentBuzzer : option BuzzerView;
  rv_buzzQueue : list BuzzerView;
  rv_gameStarted : bool;
  rv_gameEnded : bool;
  rv_winner : option string;
  rv_currentSong : option Song
}.

Definition player_view (room : Room) (entry : string * Player) : PlayerView :=
  {| pv_id := entry.1;
     pv_name := name entry.2;
     pv_score := score entry.2;
     pv_isLockedOut := bool_decide (entry.1 ∈ locked_out room);
     pv_isConnected := connected entry.2 |}.

(** [players_list.sort(key=lambda p: p["score"], reverse=True)]: Python's
    sort is stable, also with [reverse=True]; entries of equal score keep
    their relative order. *)
Fixpoint insert_by_score (p : PlayerView) (l : list PlayerView)
  : list PlayerView :=
  match l with
  | [] => [p]
  | q :: l' =>
      if pv_score p <? pv_score q then q :: insert_by_score p l'
      else p :: q :: l'
  end.

Definition sort_by_score_desc (l : list PlayerView) : list PlayerView :=
  foldr insert_by_score [] l.

Definition buzzer_view (room : Room) (sid : string) : option BuzzerView :=
  match dict_get sid (players room) with
  | Some player => Some {| bv_id := sid; bv_name := name player |}
  | None => None
  end.

(** The body of [get_room_state] once [rooms.get(room_code)] has
    produced [room]. *)
Definition room_view (room_code : string) (room : Room) (for_host : bool)
  : RoomView :=
  {| rv_roomCode := room_code;
     rv_maxScore := max_score room;
     rv_players := sort_by_score_desc (player_view room <$> players room);
     rv_roundActive := round_active room;
     rv_currentBuzzer :=
       match current_buzzer room with
       | Some b => if str_truthy b then buzzer_view room b else None
       | None => None
       end;
     rv_buzzQueue := omap (buzzer_view room) (buzz_queue room);
     rv_gameStarted := game_started room;
     rv_gameEnded := game_ended room;
     rv_winner := winner room;
     rv_currentSong := if for_host then current_song room else None |}.

Definition get_room_state (st : State) (room_code : string) (for_host : bool)
  : option RoomView :=
  match rooms st !! room_code with
  | None => None
  | Some room => Some (room_view room_code room for_host)
  end.

(** ** Effects of a handler *)

(** The texts of the [error] events:
    - [ErrCodeAndNameRequired]: "Raumcode und Name erforderlich"
    - [ErrRoomNotFound]: "Raum nicht gefunden"
    - [ErrGameAlreadyEnded]: "Spiel ist bereits beendet"
    - [ErrRoomFull]: "Raum ist voll (max. 8 Spieler)"
    - [ErrOnlyHostCanStart]: "Nur der Host kann das Spiel starten"
    - [ErrNeedOnePlayer]: "Mindestens 1 Spieler erforderlich"
    - [ErrNoSongsAvailable]: "Keine Songs verfuegbar"
    - [ErrHostAlreadyConnected]: "Host ist bereits verbunden" *)
Inductive ErrorMessage :=
| ErrCodeAndNameRequired
| ErrRoomNotFound
| ErrGameAlreadyEnded
| ErrRoomFull
| ErrOnlyHostCanStart
| ErrNeedOnePlayer
| ErrNoSongsAvailable
| ErrHostAlreadyConnected.

(** The payload of [judge_result]. The boolean keys are only ever set to
    [True]; [false] here means the key is absent. [jr_song = None] means
    the key ["song"] is absent. *)
Record JudgeResult := {
  jr_playerId : string;
  jr_playerName : string;
  jr_correctArtist : bool;
  jr_correctTitle : bool;
  jr_points : Z;
  jr_roundEnded : bool;
  jr_song : option (option Song);
  jr_gameEnded : bool;
  jr_winner : option string;
  jr_lockedOut : bool;
  jr_allLockedOut : bool
}.

Inductive Message :=
| Ev_error (message : ErrorMessage)
| Ev_room_created (roomCode : string) (maxScore : Z)
| Ev_joined_room (roomCode playerName : string) (gameStarted : bool)
| Ev_player_joined (player_name : string)
| Ev_player_left (player_name : string)
| Ev_room_state (view : option RoomView)
| Ev_game_started
| Ev_round_started (song : Song)
| Ev_round_started_preview (preview_url : string)
| Ev_player_buzzed (playerId playerName : string) (position : nat)
| Ev_judge_result (result : JudgeResult)
| Ev_round_skipped (song : option Song)
| Ev_game_ended (winner_name : option string) (finalScores : list PlayerView)
| Ev_host_disconnected
| Ev_host_rejoined (view : option RoomView).

(** Where an [emit] goes: back to the requesting connection (the default
    inside a handler) or to a Socket.IO room ([room=...]). *)
Inductive Target :=
| ToSender
| ToGroup (group : string).

Definition host_group (room_code : string) : string := room_code ++ "_host".

Inductive Effect :=
| Emit (m : Message) (to : Target)
| JoinGroup (group : string)
| LeaveGroup (group : string).

Inductive Exn :=
| ValueError
| KeyError
| TypeError.

Record Outcome := {
  post : State;
  effects : list Effect;
  raised : option Exn
}.

(** The handler returned normally. *)
Definition done (st : State) (effs : list Effect) : Outcome :=
  {| post := st; effects := effs; raised := None |}.

(** The handler was left by an exception; what it had mutated stays. *)
Definition raise (e : Exn) (st : State) (effs : list Effect) : Outcome :=
  {| post := st; effects := effs; raised := Some e |}.

(** The two [room_state] emits that end most handlers: the player view to
    the room, the host view to the host room. *)
Definition broadcast_room_state (st : State) (room_code : string)
  : list Effect :=
  [ Emit (Ev_room_state (get_room_state st room_code false))
      (ToGroup room_code);
    Emit (Ev_room_state (get_room_state st room_code true))
      (ToGroup (host_group room_code)) ].

(** ** [generate_room_code] *)

Definition code_alphabet : list ascii :=
  list_ascii_of_string "ABCDEFGHIJKLMNOPQRSTUVWXYZ0123456789".

Definition code_char (i : nat) : ascii :=
  nth (i mod 36) code_alphabet "A"%char.

(** One evaluation of [random.choices(alphabet, k=6)]: six independent
    picks, each given by the index the generator produced. *)
Definition Draw : Type := nat * nat * nat * nat * nat * nat.

Definition code_of_draw (d : Draw) : string :=
  let '(a, b, c, d, e, f) := d in
  string_of_list_ascii (code_char <$> [a; b; c; d; e; f]).

(** The [while True] loop, driven by the successive draws of the random
    generator; [None] when every given draw collides with a room, that is
    when the loop has not ended within these draws. *)
Fixpoint generate_room_code (rs : gmap string Room) (draws : list Draw)
  : option string :=
  match draws with
  | [] => None
  | d :: draws' =>
      let code := code_of_draw d in
      match rs !! code with
      | None => Some code
      | Some _ => generate_room_code rs draws'
      end
  end.

(** [random.choice(seq)] for the non-empty [seq = first :: rest], [rnd]
    being the generator's output; every element of [seq] is the result
    for some [rnd]. *)
Definition random_choice {A} (rnd : nat) (first : A) (rest : list A) : A :=
  nth (rnd mod length (first :: rest))%nat (first :: rest) first.

(** ** The event handlers

    [register_buzzer_events(socketio, songs_data)] defines the handlers as
    closures over [songs_data]; the section variable [songs] is
    [songs_data.get("songs", [])].  Python's [str.upper], [str.lower] and
    [str.strip] are taken as they are, as functions on strings.

    A payload key read with [data.get(key, default)] is an [option]
    argument, [None] when the key is absent.  The payload is a JSON object
    whose values have the types the client sends: [maxScore] an integer,
    [roomCode] and [playerName] strings, [correctArtist] and
    [correctTitle] booleans.  Values of other types are outside the model:
    with them the source raises [AttributeError] at [.upper()] and
    [.strip()] for a [roomCode] or [playerName] that is no string, and
    [TypeError] in [judge], at [player["score"] >= room["max_score"]], for
    a [maxScore] that is no number. *)

Section register_buzzer_events.

Variables str_upper str_lower str_strip : string → string.
Variable songs : list Song.

(** *** [disconnect] *)
Definition handle_disconnect (st : State) (sid : string) : Outcome :=
  match player_sessions st !! sid with
  | None => done st []
  | Some room_code =>
      match rooms st !! room_code with
      | None => done (del_session sid st) []
      | Some room =>
          if decide (host_sid room = sid) then
            let st1 :=
              set_room room_code (with_host (host_sid room) false room) st in
            done (del_session sid st1)
              [Emit Ev_host_disconnected (ToGroup room_code)]
          else
            match dict_get sid (players room) with
            | Some player =>
                let st1 :=
                  set_room room_code
                    (with_players
                       (dict_set sid (with_connected false player)
                          (players room)) room) st in
                done (del_session sid st1)
                  (broadcast_room_state st1 room_code)
            | None => done (del_session sid st) []
            end
      end
  end.

(** *** [create_room] *)
Definition new_room (sid : string) (max_score : Z) : Room :=
  {| host_sid := sid; host_connected := true; max_score := max_score;
     players := []; current_song := None; round_active := false;
     buzz_queue := []; current_buzzer := None; locked_out := ∅;
     used_song_ids := ∅; game_started := false; game_ended := false;
     winner := None |}.

(** [None]: [generate_room_code] is still looping after [draws]. *)
Definition handle_create_room (st : State) (sid : string)
    (maxScore : option Z) (draws : list Draw) : option Outcome :=
  let max_score := default 10 maxScore in
  match generate_room_code (rooms st) draws with
  | None => None
  | Some room_code =>
      let st1 := set_room room_code (new_room sid max_score) st in
      let st2 := set_session sid room_code st1 in
      Some (done st2
              [ JoinGroup room_code;
                JoinGroup (host_group room_code);
                Emit (Ev_room_created room_code max_score) ToSender ])
  end.

(** *** [join_room] *)

(** The rejoin scan: the first entry, in dictionary order, of a player
    who is not connected and whose lower-cased name equals the lower-cased
    joining name. *)
Fixpoint find_existing (ps : list (string * Player)) (player_name : string)
  : option string :=
  match ps with
  | [] => None
  | (psid, player) :: ps' =>
      if bool_decide (str_lower (name player) = str_lower player_name)
         && negb (connected player)
      then Some psid
      else find_existing ps' player_name
  end.

(** The rejoin branch: the session of [existing_sid] moves to [sid]. *)
Definition rejoin_player (sid existing_sid : string) (player_data : Player)
    (room : Room) : Room :=
  let room1 :=
    with_players
      (dict_set sid (with_connected true player_data)
         (dict_del existing_sid (players room))) room in
  let room2 :=
    with_buzz_queue
      ((λ x, if decide (x = existing_sid) then sid else x)
         <$> buzz_queue room1) room1 in
  let room3 :=
    if decide (current_buzzer room2 = Some existing_sid)
    then with_current_buzzer (Some sid) room2 else room2 in
  if decide (existing_sid ∈ locked_out room3)
  then with_locked_out ((locked_out room3 ∖ {[existing_sid]}) ∪ {[sid]}) room3
  else room3.

(** What follows the [if existing_sid: ... else: ...] once the room holds
    the joining player. *)
Definition joined (st : State) (sid room_code player_name : string)
    (room : Room) : Outcome :=
  let st1 := set_session sid room_code (set_room room_code room st) in
  done st1
    ([ JoinGroup room_code;
       Emit (Ev_joined_room room_code player_name (game_started room))
         ToSender;
       Emit (Ev_player_joined player_name) (ToGroup room_code) ]
     ++ broadcast_room_state st1 room_code).

(** The [else] branch: a new player. *)
Definition join_new_player (st : State) (sid room_code player_name : string)
    (room : Room) : Outcome :=
  if (8 <=? length (players room))%nat then
    done st [Emit (Ev_error ErrRoomFull) ToSender]
  else
    joined st sid room_code player_name
      (with_players
         (dict_set sid
            {| name := player_name; score := 0; connected := true |}
            (players room)) room).

Definition handle_join_room (st : State) (sid : string)
    (roomCode playerName : option string) : Outcome :=
  let room_code := str_upper (default "" roomCode) in
  let player_name := str_strip (default "" playerName) in
  if negb (str_truthy room_code) || negb (str_truthy player_name) then
    done st [Emit (Ev_error ErrCodeAndNameRequired) ToSender]
  else
    match rooms st !! room_code with
    | None => done st [Emit (Ev_error ErrRoomNotFound) ToSender]
    | Some room =>
        if game_ended room then
          done st [Emit (Ev_error ErrGameAlreadyEnded) ToSender]
        else
          match find_existing (players room) player_name with
          | Some existing_sid =>
              if str_truthy existing_sid then
                match dict_get existing_sid (players room) with
                | Some player_data =>
                    joined st sid room_code player_name
                      (rejoin_player sid existing_sid player_data room)
                | None => raise KeyError st []
                end
              else join_new_player st sid room_code player_name room
          | None => join_new_player st sid room_code player_name room
          end
    end.

(** *** [leave_room] *)
Definition handle_leave_room (st : State) (sid : string) : Outcome :=
  match player_sessions st !! sid with
  | None => done st []
  | Some room_code =>
      match rooms st !! room_code with
      | None => done st []
      | Some room =>
          match dict_get sid (players room) with
          | None => done st []
          | Some player =>
              let st1 :=
                set_room room_code
                  (with_players (dict_del sid (players room)) room) st in
              let st2 := del_session sid st1 in
              done st2
                ([ LeaveGroup room_code;
                   Emit (Ev_player_left (name player)) (ToGroup room_code) ]
                 ++ broadcast_room_state st2 room_code)
          end
      end
  end.

(** *** [start_game] *)
Definition handle_start_game (st : State) (sid : string) : Outcome :=
  match player_sessions st !! sid with
  | None => done st []
  | Some room_code =>
      match rooms st !! room_code with
      | None => done st [Emit (Ev_error ErrOnlyHostCanStart) ToSender]
      | Some room =>
          if decide (host_sid room ≠ sid) then
            done st [Emit (Ev_error ErrOnlyHostCanStart) ToSender]
          else if (length (players room) <? 1)%nat then
            done st [Emit (Ev_error ErrNeedOnePlayer) ToSender]
          else
            let st1 := set_room room_code (with_game_started true room) st in
            done st1
              (Emit Ev_game_started (ToGroup room_code)
               :: broadcast_room_state st1 room_code)
      end
  end.

(** *** [start_round] *)
Definition handle_start_round (st : State) (sid : string) (rnd : nat)
  : Outcome :=
  match player_sessions st !! sid with
  | None => done st []
  | Some room_code =>
      match rooms st !! room_code with
      | None => done st []
      | Some room =>
          if decide (host_sid room ≠ sid) then done st []
          else if game_ended room then done st []
          else
            let all_songs := songs in
            let available :=
              filter (λ s, song_id s ∉ used_song_ids room) all_songs in
            (* Reset pool if exhausted *)
            let '(room1, available1) :=
              match available with
              | [] => (with_used_song_ids ∅ room, all_songs)
              | _ :: _ => (room, available)
              end in
            match available1 with
            | [] =>
                done (set_room room_code room1 st)
                  [Emit (Ev_error ErrNoSongsAvailable) ToSender]
            | first :: rest =>
                let song := random_choice rnd first rest in
                let room2 :=
                  with_locked_out ∅
                    (with_current_buzzer None
                       (with_buzz_queue []
                          (with_round_active true
                             (with_current_song (Some song)
                                (with_used_song_ids
                                   (used_song_ids room1 ∪ {[song_id song]})
                                   room1))))) in
                let st1 := set_room room_code room2 st in
                done st1
                  ([ Emit (Ev_round_started song)
                       (ToGroup (host_group room_code));
                     Emit (Ev_round_started_preview (song_preview_url song))
                       (ToGroup room_code) ]
                   ++ broadcast_room_state st1 room_code)
            end
      end
  end.

(** *** [buzz] *)
Definition handle_buzz (st : State) (sid : string) : Outcome :=
  match player_sessions st !! sid with
  | None => done st []
  | Some room_code =>
      match rooms st !! room_code with
      | None => done st []
      | Some room =>
          if negb (round_active room) then done st []
          else
            match dict_get sid (players room) with
            | None => done st []
            | Some player =>
                (* Check if already buzzed or locked out *)
                if bool_decide (sid ∈ buzz_queue room)
                   || bool_decide (sid ∈ locked_out room)
                then done st []
                else
                  let room1 :=
                    with_buzz_queue (buzz_queue room ++ [sid]) room in
                  (* If first buzzer, set as current *)
                  let room2 :=
                    match current_buzzer room1 with
                    | None => with_current_buzzer (Some sid) room1
                    | Some _ => room1
                    end in
                  let st1 := set_room room_code room2 st in
                  done st1
                    (Emit (Ev_player_buzzed sid (name player)
                             (length (buzz_queue room2)))
                       (ToGroup room_code)
                     :: broadcast_room_state st1 room_code)
            end
      end
  end.

(** *** [judge] *)

(** [[sid for sid, p in room["players"].items() if p.get("connected", True)]] *)
Definition connected_players (room : Room) : list string :=
  (filter (λ e, connected e.2 = true) (players room)).*1.

(** [room["locked_out"] >= set(connected_players)] *)
Definition all_locked_out (room : Room) : bool :=
  bool_decide (list_to_set (connected_players room) ⊆ locked_out room).

Definition handle_judge (st : State) (sid : string)
    (correctArtist correctTitle : option bool) : Outcome :=
  match player_sessions st !! sid with
  | None => done st []
  | Some room_code =>
      match rooms st !! room_code with
      | None => done st []
      | Some room =>
          if decide (host_sid room ≠ sid) then done st []
          else if negb (opt_truthy (current_buzzer room)) then done st []
          else
            let correct_artist := default false correctArtist in
            let correct_title := default false correctTitle in
            let points :=
              (if correct_artist then 1 else 0)
              + (if correct_title then 1 else 0) in
            match current_buzzer room with
            | None => done st [] (* excluded by the test above *)
            | Some buzzer_sid =>
                match dict_get buzzer_sid (players room) with
                | None => done st []
                | Some buzzer =>
                    let result :=
                      {| jr_playerId := buzzer_sid;
                         jr_playerName := name buzzer;
                         jr_correctArtist := correct_artist;
                         jr_correctTitle := correct_title;
                         jr_points := points;
                         jr_roundEnded := false; jr_song := None;
                         jr_gameEnded := false; jr_winner := None;
                         jr_lockedOut := false; jr_allLockedOut := false |} in
                    if 0 <? points then
                      (* Correct answer - award points and end round *)
                      let buzzer1 := with_score (score buzzer + points) buzzer in
                      let room1 :=
                        with_current_buzzer None
                          (with_round_active false
                             (with_players
                                (dict_set buzzer_sid buzzer1 (players room))
                                room)) in
                      (* Check for winner *)
                      let won := max_score room1 <=? score buzzer1 in
                      let room2 :=
                        if won
                        then with_winner (Some (name buzzer1))
                               (with_game_ended true room1)
                        else room1 in
                      let result1 :=
                        {| jr_playerId := jr_playerId result;
                           jr_playerName := jr_playerName result;
                           jr_correctArtist := jr_correctArtist result;
                           jr_correctTitle := jr_correctTitle result;
                           jr_points := jr_points result;
                           jr_roundEnded := true;
                           jr_song := Some (current_song room1);
                           jr_gameEnded := won;
                           jr_winner :=
                             if won then Some (name buzzer1) else None;
                           jr_lockedOut := false;
                           jr_allLockedOut := false |} in
                      let st1 := set_room room_code room2 st in
                      done st1
                        (Emit (Ev_judge_result result1) (ToGroup room_code)
                         :: broadcast_room_state st1 room_code)
                    else
                      (* Wrong answer - lock out and move to next in queue *)
                      let room1 :=
                        with_locked_out (locked_out room ∪ {[buzzer_sid]})
                          room in
                      match list_remove buzzer_sid (buzz_queue room1) with
                      | None =>
                          raise ValueError (set_room room_code room1 st) []
                      | Some queue =>
                          let room2 := with_buzz_queue queue room1 in
                          let room3 :=
                            with_current_buzzer (head (buzz_queue room2))
                              room2 in
                          (* Check if all players are locked out *)
                          let all_out := all_locked_out room3 in
                          let room4 :=
                            if all_out then with_round_active false room3
                            else room3 in
                          let result1 :=
                            {| jr_playerId := jr_playerId result;
                               jr_playerName := jr_playerName result;
                               jr_correctArtist := jr_correctArtist result;
                               jr_correctTitle := jr_correctTitle result;
                               jr_points := jr_points result;
                               jr_roundEnded := all_out;
                               jr_song :=
                                 if all_out then Some (current_song room3)
                                 else None;
                               jr_gameEnded := false;
                               jr_winner := None;
                               jr_lockedOut := true;
                               jr_allLockedOut := all_out |} in
                          let st1 := set_room room_code room4 st in
                          done st1
                            (Emit (Ev_judge_result result1)
                               (ToGroup room_code)
                             :: broadcast_room_state st1 room_code)
                      end
                end
            end
      end
  end.

(** *** [skip_round] *)
Definition handle_skip_round (st : State) (sid : string) : Outcome :=
  match player_sessions st !! sid with
  | None => done st []
  | Some room_code =>
      match rooms st !! room_code with
      | None => done st []
      | Some room =>
          if decide (host_sid room ≠ sid) then done st []
          else
            let room1 :=
              with_buzz_queue []
                (with_current_buzzer None (with_round_active false room)) in
            let st1 := set_room room_code room1 st in
            done st1
              (Emit (Ev_round_skipped (current_song room1))
                 (ToGroup room_code)
               :: broadcast_room_state st1 room_code)
      end
  end.

(** *** [end_game] *)

(** [max(room["players"].values(), key=lambda p: p["score"])]: the first
    player, in dictionary order, whose score no other player exceeds. *)
Definition max_by_score (ps : list Player) : option Player :=
  match ps with
  | [] => None
  | p :: ps' =>
      Some (foldl (λ best q, if score best <? score q then q else best) p ps')
  end.

Definition handle_end_game (st : State) (sid : string) : Outcome :=
  match player_sessions st !! sid with
  | None => done st []
  | Some room_code =>
      match rooms st !! room_code with
      | None => done st []
      | Some room =>
          if decide (host_sid room ≠ sid) then done st []
          else
            let room1 := with_round_active false (with_game_ended true room) in
            (* Find winner by highest score *)
            let room2 :=
              match max_by_score (players room1).*2 with
              | Some w => with_winner (Some (name w)) room1
              | None => room1
              end in
            let st1 := set_room room_code room2 st in
            match get_room_state st1 room_code false with
            | None => raise TypeError st1 []
            | Some view =>
                done st1
                  [Emit (Ev_game_ended (winner room2) (rv_players view))
                     (ToGroup room_code)]
            end
      end
  end.

(** *** [host_rejoin] *)
Definition handle_host_rejoin (st : State) (sid : string)
    (roomCode : option string) : Outcome :=
  let room_code := str_upper (default "" roomCode) in
  match rooms st !! room_code with
  | None => done st [Emit (Ev_error ErrRoomNotFound) ToSender]
  | Some room =>
      (* Allow rejoin if host was disconnected *)
      if negb (host_connected room) then
        let st1 :=
          set_session sid room_code
            (set_room room_code (with_host sid true room) st) in
        done st1
          [ JoinGroup room_code;
            JoinGroup (host_group room_code);
            Emit (Ev_host_rejoined (get_room_state st1 room_code true))
              ToSender ]
      else done st [Emit (Ev_error ErrHostAlreadyConnected) ToSender]
  end.

(** *** [get_room_state] (the event) *)
Definition handle_get_room_state (st : State) (sid : string) : Outcome :=
  match player_sessions st !! sid with
  | None => done st []
  | Some room_code =>
      match rooms st !! room_code with
      | None => done st []
      | Some room =>
          if decide (host_sid room = sid) then
            done st [Emit (Ev_room_state (get_room_state st room_code true))
                       ToSender]
          else
            done st [Emit (Ev_room_state (get_room_state st room_code false))
                       ToSender]
      end
  end.

(** ** The server as a transition system

    Events are handled one at a time; an [Event] is an inbound event
    together with the connection that sent it and what the random
    generator produced while it was handled. *)

Inductive Event :=
| Disconnect (sid : string)
| CreateRoom (sid : string) (maxScore : option Z) (draws : list Draw)
| JoinRoom (sid : string) (roomCode playerName : option string)
| LeaveRoom (sid : string)
| StartGame (sid : string)
| StartRound (sid : string) (rnd : nat)
| Buzz (sid : string)
| Judge (sid : string) (correctArtist correctTitle : option bool)
| SkipRound (sid : string)
| EndGame (sid : string)
| HostRejoin (sid : string) (roomCode : option string)
| GetRoomState (sid : string).

Definition handle (st : State) (ev : Event) : option Outcome :=
  match ev with
  | Disconnect sid => Some (handle_disconnect st sid)
  | CreateRoom sid maxScore draws => handle_create_room st sid maxScore draws
  | JoinRoom sid roomCode playerName =>
      Some (handle_join_room st sid roomCode playerName)
  | LeaveRoom sid => Some (handle_leave_room st sid)
  | StartGame sid => Some (handle_start_game st sid)
  | StartRound sid rnd => Some (handle_start_round st sid rnd)
  | Buzz sid => Some (handle_buzz st sid)
  | Judge sid correctArtist correctTitle =>
      Some (handle_judge st sid correctArtist correctTitle)
  | SkipRound sid => Some (handle_skip_round st sid)
  | EndGame sid => Some (handle_end_game st sid)
  | HostRejoin sid roomCode => Some (handle_host_rejoin st sid roomCode)
  | GetRoomState sid => Some (handle_get_room_state st sid)
  end.

(** The state after a sequence of events, each handled on the state the
    previous one left (also when it was left by an exception). *)
Fixpoint run (st : State) (evs : list Event) : option State :=
  match evs with
  | [] => Some st
  | ev :: evs' =>
      match handle st ev with
      | None => None
      | Some out => run (post out) evs'
      end
  end.

(** The states the server can be in. *)
Definition reachable (st : State) : Prop :=
  ∃ evs, run initial_state evs = Some st.

End register_buzzer_events.

(** ** Concrete string functions and sample data

    ASCII versions of [str.upper], [str.lower] and [str.strip], a small
    catalog, and the rooms, states and event sequences on which the
    handlers are run below.  The ASCII versions agree with Python's on the
    strings they are applied to here: [ascii_upper] and [ascii_lower] map
    the letters a-z and A-Z only, and [ascii_strip] removes the characters
    9 to 13 and 32 only, while Python's functions also handle letters and
    white space outside these ranges. *)

Definition ascii_upper_char (c : ascii) : ascii :=
  let n := nat_of_ascii c in
  if ((97 <=? n) && (n <=? 122))%nat then ascii_of_nat (n - 32) else c.

Definition ascii_lower_char (c : ascii) : ascii :=
  let n := nat_of_ascii c in
  if ((65 <=? n) && (n <=? 90))%nat then ascii_of_nat (n + 32) else c.

Definition is_space (c : ascii) : bool :=
  let n := nat_of_ascii c in
  (((9 <=? n) && (n <=? 13)) || (n =? 32))%nat.

Definition ascii_upper (s : string) : string :=
  string_of_list_ascii (ascii_upper_char <$> list_ascii_of_string s).

Definition ascii_lower (s : string) : string :=
  string_of_list_ascii (ascii_lower_char <$> list_ascii_of_string s).

Fixpoint drop_spaces (l : list ascii) : list ascii :=
  match l with
  | [] => []
  | c :: l' => if is_space c then drop_spaces l' else l
  end.

Definition ascii_strip (s : string) : string :=
  string_of_list_ascii
    (reverse (drop_spaces (reverse (drop_spaces (list_ascii_of_string s))))).

Definition song_a : Song :=
  {| song_id := "s1"; song_title := "Title A"; song_artist := "Artist A";
     song_year := 1999; song_context := "Charts 1999";
     song_preview_url := "http://p/1"; song_cover_url := "http://c/1";
     song_album := "Album A"; song_spotify_url := "http://s/1" |}.

Definition song_b : Song :=
  {| song_id := "s2"; song_title := "Title B"; song_artist := "Artist B";
     song_year := 2005; song_context := "Charts 2005";
     song_preview_url := "http://p/2"; song_cover_url := "http://c/2";
     song_album := "Album B"; song_spotify_url := "http://s/2" |}.

Definition catalog : list Song := [song_a; song_b].

(** The server with the ASCII string functions and the sample catalog. *)
Definition run_ascii : State → list Event → option State :=
  run ascii_upper ascii_lower ascii_strip catalog.

Definition player0 (n : string) : Player :=
  {| name := n; score := 0; connected := true |}.

(** A room in the lobby, hosted by ["h"], with the given players. *)
Definition lobby (ps : list (string * Player)) : Room :=
  with_players ps (new_room "h" 10).

(** A room with a round in progress. *)
Definition playing (ps : list (string * Player)) (queue : list string)
    (locked : gset string) : Room :=
  with_locked_out locked
    (with_current_buzzer (head queue)
       (with_buzz_queue queue
          (with_round_active true
             (with_current_song (Some song_a)
                (with_game_started true (lobby ps)))))).

(** The global state with the single room ["ROOM01"] and the sessions of
    its host ["h"] and of the connections [sids]. *)
Definition single_room (room : Room) (sids : list string) : State :=
  {| rooms := {[ "ROOM01" := room ]};
     player_sessions :=
       list_to_map ((λ s, (s, "ROOM01")) <$> ("h" :: sids)) |}.

(** Eight player entries, the last one of a player who lost the
    connection. *)
Definition eight_players : list (string * Player) :=
  [ ("p1", player0 "Ann"); ("p2", player0 "Ben"); ("p3", player0 "Cem");
    ("p4", player0 "Dan"); ("p5", player0 "Eva"); ("p6", player0 "Fay");
    ("p7", player0 "Gus"); ("p8", with_connected false (player0 "Zed")) ].

Definition full_state : State :=
  single_room (lobby eight_players)
    ["p1"; "p2"; "p3"; "p4"; "p5"; "p6"; "p7"].

(** The host creates a room (the generator draws the code ["AAAAAA"]),
    Alice joins, the game and a round start, Alice buzzes, and the host
    ends the game while Alice is the current buzzer. *)
Definition end_game_with_buzzer : list Event :=
  [ CreateRoom "h" None [(0, 0, 0, 0, 0, 0)%nat];
    JoinRoom "a" (Some "aaaaaa") (Some "Alice");
    StartGame "h";
    StartRound "h" 0;
    Buzz "a";
    EndGame "h" ].

(** The room and the state after [end_game_with_buzzer]. *)
Definition ended_room : Room :=
  {| host_sid := "h"; host_connected := true; max_score := 10;
     players := [("a", player0 "Alice")];
     current_song := Some song_a; round_active := false;
     buzz_queue := ["a"]; current_buzzer := Some "a"; locked_out := ∅;
     used_song_ids := {[ "s1" ]};
     game_started := true; game_ended := true; winner := Some "Alice" |}.

Definition ended_state : State :=
  {| rooms := {[ "AAAAAA" := ended_room ]};
     player_sessions := {[ "h" := "AAAAAA"; "a" := "AAAAAA" ]} |}.

(** Bob buzzes and answers wrongly, so he is locked out; Alice buzzes and
    is the current buzzer; Bob loses his connection; then Alice's
    connection emits [join_room] again, under Bob's name. *)
Definition rejoin_as_locked_out_player : list Event :=
  [ CreateRoom "h" None [(0, 0, 0, 0, 0, 0)%nat];
    JoinRoom "a" (Some "AAAAAA") (Some "Alice");
    JoinRoom "b" (Some "AAAAAA") (Some "Bob");
    StartGame "h";
    StartRound "h" 0;
    Buzz "b";
    Judge "h" (Some false) (Some false);
    Buzz "a";
    Disconnect "b";
    JoinRoom "a" (Some "AAAAAA") (Some "Bob") ].

(** The room after [rejoin_as_locked_out_player]: the connection ["a"]
    holds Bob's entry. *)
Definition taken_over_room : Room :=
  {| host_sid := "h"; host_connected := true; max_score := 10;
     players := [("a", player0 "Bob")];
     current_song := Some song_a; round_active := true;
     buzz_queue := ["a"]; current_buzzer := Some "a";
     locked_out := {[ "a" ]};
     used_song_ids := {[ "s1" ]};
     game_started := true; game_ended := false; winner := None |}.

(** The scenario of the specification: a room with [maxScore] 2, Alice
    and Bob join, Alice buzzes before Bob and is judged right on artist
    and title. *)
Definition alice_wins : list Event :=
  [ CreateRoom "h" (Some 2) [(0, 0, 0, 0, 0, 0)%nat];
    JoinRoom "a" (Some "AAAAAA") (Some "Alice");
    JoinRoom "b" (Some "AAAAAA") (Some "Bob");
    StartGame "h";
    StartRound "h" 0;
    Buzz "a";
    Buzz "b";
    Judge "h" (Some true) (Some true) ].

Definition won_room : Room :=
  {| host_sid := "h"; host_connected := true; max_score := 2;
     players := [("a", with_score 2 (player0 "Alice")); ("b", player0 "Bob")];
     current_song := Some song_a; round_active := false;
     buzz_queue := ["a"; "b"]; current_buzzer := None; locked_out := ∅;
     used_song_ids := {[ "s1" ]};
     game_started := true; game_ended := true; winner := Some "Alice" |}.

Definition won_state : State :=
  {| rooms := {[ "AAAAAA" := won_room ]};
     player_sessions :=
       {[ "h" := "AAAAAA"; "a" := "AAAAAA"; "b" := "AAAAAA" ]} |}.

(** Alice and Bob join, a round starts, Alice buzzes before Bob. *)
Definition two_buzzes : list Event :=
  [ CreateRoom "h" None [(0, 0, 0, 0, 0, 0)%nat];
    JoinRoom "a" (Some "AAAAAA") (Some "Alice");
    JoinRoom "b" (Some "AAAAAA") (Some "Bob");
    StartGame "h";
    StartRound "h" 0;
    Buzz "a";
    Buzz "b" ].

(** Nine connections try to join the same room. *)
Definition nine_joins : list Event :=
  CreateRoom "h" None [(0, 0, 0, 0, 0, 0)%nat]
  :: ((λ n, JoinRoom ("p" +:+ n) (Some "AAAAAA") (Some ("Player " +:+ n)))
        <$> ["1"; "2"; "3"; "4"; "5"; "6"; "7"; "8"; "9"]).

(** The state after [two_buzzes]. *)
Definition two_buzzes_room : Room :=
  {| host_sid := "h"; host_connected := true; max_score := 10;
     players := [("a", player0 "Alice"); ("b", player0 "Bob")];
     current_song := Some song_a; round_active := true;
     buzz_queue := ["a"; "b"]; current_buzzer := Some "a"; locked_out := ∅;
     used_song_ids := {[ "s1" ]};
     game_started := true; game_ended := false; winner := None |}.

Definition two_buzzes_state : State :=
  {| rooms := {[ "AAAAAA" := two_buzzes_room ]};
     player_sessions :=
       {[ "h" := "AAAAAA"; "a" := "AAAAAA"; "b" := "AAAAAA" ]} |}.

(** The state after [nine_joins]: the ninth connection has no entry and
    no session. *)
Definition eight_joined_room : Room :=
  with_players
    ((λ n, ("p" +:+ n, player0 ("Player " +:+ n)))
       <$> ["1"; "2"; "3"; "4"; "5"; "6"; "7"; "8"])
    (new_room "h" 10).

Definition eight_joined_state : State :=
  {| rooms := {[ "AAAAAA" := eight_joined_room ]};
     player_sessions :=
       list_to_map
         ((λ s, (s, "AAAAAA"))
            <$> "h" :: ((λ n, "p" +:+ n)
                          <$> ["1"; "2"; "3"; "4"; "5"; "6"; "7"; "8"])) |}.

(** Two players whose names differ in case only, "Bob" and "bob"; "bob"
    scores one point in the first round, both buzz in the second round,
    "bob" first, and then both lose their connections. *)
Definition two_bobs : list Event :=
  [ CreateRoom "h" None [(0, 0, 0, 0, 0, 0)%nat];
    JoinRoom "b1" (Some "AAAAAA") (Some "Bob");
    JoinRoom "b2" (Some "AAAAAA") (Some "bob");
    StartGame "h";
    StartRound "h" 0;
    Buzz "b2";
    Judge "h" (Some true) None;
    StartRound "h" 0;
    Buzz "b2";
    Buzz "b1";
    Disconnect "b1";
    Disconnect "b2" ].

(** The state after [two_bobs]. *)
Definition two_bobs_room : Room :=
  {| host_sid := "h"; host_connected := true; max_score := 10;
     players := [ ("b1", {| name := "Bob"; score := 0; connected := false |});
                  ("b2", {| name := "bob"; score := 1; connected := false |}) ];
     current_song := Some song_b; round_active := true;
     buzz_queue := ["b2"; "b1"]; current_buzzer := Some "b2"; locked_out := ∅;
     used_song_ids := {[ "s1"; "s2" ]};
     game_started := true; game_ended := false; winner := None |}.

Definition two_bobs_state : State :=
  {| rooms := {[ "AAAAAA" := two_bobs_room ]};
     player_sessions := {[ "h" := "AAAAAA" ]} |}.

(** The room after connection ["n"] has joined it as "BOB". *)
Definition two_bobs_rejoined_room : Room :=
  {| host_sid := "h"; host_connected := true; max_score := 10;
     players := [ ("b2", {| name := "bob"; score := 1; connected := false |});
                  ("n", {| name := "Bob"; score := 0; connected := true |}) ];
     current_song := Some song_b; round_active := true;
     buzz_queue := ["b2"; "n"]; current_buzzer := Some "b2"; locked_out := ∅;
     used_song_ids := {[ "s1"; "s2" ]};
     game_started := true; game_ended := false; winner := None |}.

(** ** Predicates used in the statements *)

(** The room a connection is attached to: [rooms.get(player_sessions[sid])]. *)
Definition room_of (st : State) (sid : string) : option Room :=
  match player_sessions st !! sid with
  | None => None
  | Some room_code => rooms st !! room_code
  end.

(** The conditions under which [handle_buzz] returns before it touches the
    room: the connection is attached to no room, or no round is active, or
    it has no player entry, or it is queued already, or it is locked out. *)
Definition buzz_refused (st : State) (sid : string) : Prop :=
  match room_of st sid with
  | None => True
  | Some room =>
      round_active room = false
      ∨ dict_get sid (players room) = None
      ∨ sid ∈ buzz_queue room
      ∨ sid ∈ locked_out room
  end.

(** A sequence of [buzz] events, handled one after the other. *)
Definition buzz_all (st : State) (sids : list string) : State :=
  foldl (λ st sid, post (handle_buzz st sid)) st sids.

(** [sid] is attached to the room [room] stored under [code], has a player
    entry there, and is neither locked out nor queued. *)
Definition may_buzz (st : State) (code : string) (room : Room) (sid : string)
  : Prop :=
  player_sessions st !! sid = Some code
  ∧ is_Some (dict_get sid (players room))
  ∧ (sid ∉ locked_out room)
  ∧ (sid ∉ buzz_queue room).

(** The current buzzer after the connections [sids] buzzed in this order. *)
Definition first_buzzer (room : Room) (sids : list string) : option string :=
  match current_buzzer room with
  | None => head sids
  | Some b => Some b
  end.

(** Every song of the catalog has been played in this room. *)
Definition exhausted (songs : list Song) (room : Room) : Prop :=
  Forall (λ s, song_id s ∈ used_song_ids room) songs.

(** The room as [start_round] leaves it after drawing [song], [used]
    being the new value of [used_song_ids]. *)
Definition round_started_room (song : Song) (used : gset string) (room : Room)
  : Room :=
  {| host_sid := host_sid room;
     host_connected := host_connected room;
     max_score := max_score room;
     players := players room;
     current_song := Some song;
     round_active := true;
     buzz_queue := [];
     current_buzzer := None;
     locked_out := ∅;
     used_song_ids := used;
     game_started := game_started room;
     game_ended := game_ended room;
     winner := winner room |}.

(** The view [view] with the key ["currentSong"] set as given. *)
Definition add_current_song (song : option Song) (view : RoomView) : RoomView :=
  {| rv_roomCode := rv_roomCode view;
     rv_maxScore := rv_maxScore view;
     rv_players := rv_players view;
     rv_roundActive := rv_roundActive view;
     rv_currentBuzzer := rv_currentBuzzer view;
     rv_buzzQueue := rv_buzzQueue view;
     rv_gameStarted := rv_gameStarted view;
     rv_gameEnded := rv_gameEnded view;
     rv_winner := rv_winner view;
     rv_currentSong := song |}.

(** Two rooms that differ at most in [current_song]. *)
Definition same_up_to_current_song (r1 r2 : Room) : Prop :=
  with_current_song None r1 = with_current_song None r2.

(** The places of a room that hold the identity of a player's connection. *)
Definition occurs_in (sid : string) (room : Room) : Prop :=
  sid ∈ dict_keys (players room)
  ∨ sid ∈ buzz_queue room
  ∨ current_buzzer room = Some sid
  ∨ sid ∈ locked_out room.

(** [new if x == old else x] *)
Definition substitute (old new x : string) : string :=
  if decide (x = old) then new else x.

(** Per room: a room whose game has ended has no active round; the
    current buzzer, when set, is the head of the buzz queue; and while a
    round is active without a current buzzer the queue is empty. *)
Definition room_inv (r : Room) : Prop :=
  (game_ended r = true → round_active r = false)
  ∧ match current_buzzer r with
    | Some b => head (buzz_queue r) = Some b
    | None => round_active r = true → buzz_queue r = []
    end.

(** Every room of the state satisfies [room_inv]. *)
Definition state_inv (st : State) : Prop :=
  ∀ code r, rooms st !! code = Some r → room_inv r.

(** Per room: no connection is queued twice, and no queued connection is
    locked out. *)
Definition queue_inv (r : Room) : Prop :=
  NoDup (buzz_queue r) ∧ ∀ x, x ∈ buzz_queue r → x ∉ locked_out r.

(** Every room of the state satisfies [queue_inv]. *)
Definition state_queue_inv (st : State) : Prop :=
  ∀ code r, rooms st !! code = Some r → queue_inv r.

(** A [join_room] is fresh when the joining connection occurs nowhere in
    the room it names. *)
Definition fresh_join (str_upper : string → string) (st : State) (ev : Event)
  : Prop :=
  match ev with
  | JoinRoom sid roomCode _ =>
      ∀ room, rooms st !! str_upper (default "" roomCode) = Some room →
              ¬ occurs_in sid room
  | _ => True
  end.

(** Every [join_room] of the sequence is fresh in the state it is handled
    in. *)
Fixpoint fresh_joins (str_upper str_lower str_strip : string → string)
    (songs : list Song) (st : State) (evs : list Event) : Prop :=
  match evs with
  | [] => True
  | ev :: evs' =>
      fresh_join str_upper st ev
      ∧ match handle str_upper str_lower str_strip songs st ev with
        | Some out =>
            fresh_joins str_upper str_lower str_strip songs (post out) evs'
        | None => True
        end
  end.

(** The connection that sent the event ([request.sid]). *)
Definition event_sid (ev : Event) : string :=
  match ev with
  | Disconnect sid | CreateRoom sid _ _ | JoinRoom sid _ _ | LeaveRoom sid
  | StartGame sid | StartRound sid _ | Buzz sid | Judge sid _ _
  | SkipRound sid | EndGame sid | HostRejoin sid _ | GetRoomState sid => sid
  end.

(** The code of the room an event is about: the one named in the payload
    of [join_room] and [host_rejoin], the one generated by [create_room],
    and for every other event the one the connection is attached to. *)
Definition event_room (str_upper : string → string) (st : State) (ev : Event)
  : option string :=
  match ev with
  | CreateRoom _ _ draws => generate_room_code (rooms st) draws
  | JoinRoom _ roomCode _ | HostRejoin _ roomCode =>
      Some (str_upper (default "" roomCode))
  | _ => player_sessions st !! event_sid ev
  end.

(** The connection is not the host of the room it is attached to (or is
    attached to no room). *)
Definition not_host (st : State) (sid : string) : Prop :=
  match room_of st sid with
  | None => True
  | Some room => host_sid room ≠ sid
  end.

(** Points of a judgment: the number of flags that are set. *)
Definition judge_points (correctArtist correctTitle : option bool) : Z :=
  (if default false correctArtist then 1 else 0)
  + (if default false correctTitle then 1 else 0).

(** The room after the current buzzer [buzzer_sid], whose entry is
    [buzzer], was awarded [points] > 0. *)
Definition awarded_room (buzzer_sid : string) (buzzer : Player) (points : Z)
    (room : Room) : Room :=
  let new_score := score buzzer + points in
  let won := max_score room <=? new_score in
  {| host_sid := host_sid room;
     host_connected := host_connected room;
     max_score := max_score room;
     players := dict_set buzzer_sid (with_score new_score buzzer) (players room);
     current_song := current_song room;
     round_active := false;
     buzz_queue := buzz_queue room;
     current_buzzer := None;
     locked_out := locked_out room;
     used_song_ids := used_song_ids room;
     game_started := game_started room;
     game_ended := if won then true else game_ended room;
     winner := if won then Some (name buzzer) else winner room |}.

(** A room code as [generate_room_code] builds it: six characters, each
    an upper-case letter or a digit. *)
Definition well_formed_code (code : string) : Prop :=
  String.length code = 6%nat
  ∧ Forall (λ c, c ∈ code_alphabet) (list_ascii_of_string code).

(** What every handler keeps of a room: its target score, and the flags
    [game_started] and [game_ended] once they are set. *)
Definition room_persists (room room' : Room) : Prop :=
  max_score room' = max_score room
  ∧ (game_started room = true → game_started room' = true)
  ∧ (game_ended room = true → game_ended room' = true).

(** [w] is the first player of [ps] with the highest score: no player has
    more points, and every player before [w] has fewer. *)
Definition first_maximum (ps : list Player) (w : Player) : Prop :=
  ∃ i, ps !! i = Some w
       ∧ (∀ j q, ps !! j = Some q → score q ≤ score w)
       ∧ (∀ j q, (j < i)%nat → ps !! j = Some q → score q < score w).

(** The list is in non-increasing order of score. *)
Definition by_score_desc (l : list PlayerView) : Prop :=
  StronglySorted (λ p q, pv_score q ≤ pv_score p) l.

(** Every room has at most eight player entries. *)
Definition at_most_eight_players (st : State) : Prop :=
  ∀ code room, rooms st !! code = Some room →
               (length (players room) ≤ 8)%nat.

(** No entry of [ps] has a lower score in [ps']: it is gone or has at
    least the score it had. *)
Definition scores_kept (ps ps' : list (string * Player)) : Prop :=
  ∀ sid p, dict_get sid ps = Some p →
           match dict_get sid ps' with
           | Some p' => score p ≤ score p'
           | None => True
           end.

(** An effect respects the secrecy of the current song when, if it is a
    [room_state] whose view has the song, it goes to the host room of that
    room, or back to the requesting connection [sender] and [sender] is
    the host of that room. *)
Definition song_goes_to_host (st : State) (sender : string) (e : Effect)
  : Prop :=
  match e with
  | Emit (Ev_room_state (Some view)) to =>
      rv_currentSong view ≠ None →
      to = ToGroup (host_group (rv_roomCode view))
      ∨ (to = ToSender
         ∧ ∃ room, rooms st !! rv_roomCode view = Some room
                   ∧ host_sid room = sender)
  | _ => True
  end.

(** The message carries the record of a song: a view with the current
    song, the [round_started] for the host, a [judge_result] or a
    [round_skipped] with the song.  (The [round_started] for the players
    has the preview URL only.) *)
Definition reveals_song (m : Message) : Prop :=
  match m with
  | Ev_room_state (Some view) | Ev_host_rejoined (Some view) =>
      rv_currentSong view ≠ None
  | Ev_round_started _ => True
  | Ev_judge_result result => ∃ song, jr_song result = Some (Some song)
  | Ev_round_skipped (Some _) => True
  | _ => False
  end.

(** An effect keeps the song secret, [st'] being the state after the
    handler: a message that carries the song goes to the host room of a
    room, or back to the requesting connection [sender], which is the host
    of a room, or to the players of a room that has no active round. *)
Definition song_kept_secret (st' : State) (sender : string) (e : Effect)
  : Prop :=
  match e with
  | Emit m to =>
      reveals_song m →
      ∃ code room,
        rooms st' !! code = Some room
        ∧ (to = ToGroup (host_group code)
           ∨ (to = ToSender ∧ host_sid room = sender)
           ∨ (to = ToGroup code ∧ round_active room = false))
  | _ => True
  end.

(** The fields of a room that hold no player identity are the same in
    [r] and [r']. *)
Definition same_settings (r r' : Room) : Prop :=
  host_sid r' = host_sid r
  ∧ host_connected r' = host_connected r
  ∧ max_score r' = max_score r
  ∧ current_song r' = current_song r
  ∧ round_active r' = round_active r
  ∧ used_song_ids r' = used_song_ids r
  ∧ game_started r' = game_started r
  ∧ game_ended r' = game_ended r
  ∧ winner r' = winner r.

(** [(old, p)] is the first entry of [ps], in joining order, of a
    disconnected player whose name equals [player_name] up to case. *)
Definition first_disconnected_match (str_lower : string → string)
    (ps : list (string * Player)) (player_name old : string) (p : Player)
  : Prop :=
  ∃ i : nat,
    ps !! i = Some (old, p)
    ∧ connected p = false
    ∧ str_lower (name p) = str_lower player_name
    ∧ ∀ (j : nat) k q, (j < i)%nat → ps !! j = Some (k, q) →
        ¬ (connected q = false
           ∧ str_lower (name q) = str_lower player_name).

(** ** Properties *)

(** Settles a closed decidable proposition by evaluating its decision
    procedure. *)
Ltac by_decide := apply (bool_decide_unpack _); vm_compute; exact I.

(** *** The model on concrete inputs *)

Example code_of_draw_example :
  code_of_draw (7, 8, 35, 36, 26, 1)%nat = "HI9A0B".
Proof. reflexivity. Qed.

Example ascii_functions_example :
  ascii_strip "  Bob Dylan  " = "Bob Dylan"
  ∧ ascii_upper "ab1z{" = "AB1Z{"
  ∧ ascii_lower "AZ[q" = "az[q".
Proof. repeat split; reflexivity. Qed.

(** Equal scores keep the order of the dictionary. *)
Example sort_by_score_desc_is_stable :
  pv_id <$> sort_by_score_desc
              (player_view (lobby [])
                 <$> [ ("a", with_score 1 (player0 "A"));
                       ("b", with_score 3 (player0 "B"));
                       ("c", with_score 1 (player0 "C"));
                       ("d", with_score 3 (player0 "D")) ])
  = ["b"; "d"; "a"; "c"].
Proof. reflexivity. Qed.

Example max_by_score_takes_first :
  max_by_score [ with_score 1 (player0 "A"); with_score 3 (player0 "B");
                 with_score 3 (player0 "C") ]
  = Some (with_score 3 (player0 "B")).
Proof. reflexivity. Qed.

(** The scenario of the specification: Alice reaches [maxScore], the game
    ends with her as winner, and a buzz by Bob afterwards changes nothing
    and emits nothing. *)
Example spec_scenario_alice_wins :
  run_ascii initial_state alice_wins = Some won_state
  ∧ handle_buzz won_state "b" = done won_state [].
Proof. split; vm_compute; reflexivity. Qed.

(** An accepted buzz: Bob is appended to the queue behind Alice. *)
Example buzz_accepted_example :
  let ps := [("a", player0 "Alice"); ("b", player0 "Bob")] in
  post (handle_buzz (single_room (playing ps ["a"] ∅) ["a"; "b"]) "b")
  = single_room (playing ps ["a"; "b"] ∅) ["a"; "b"].
Proof. vm_compute. reflexivity. Qed.

(** A wrong answer by the only connected player ends the round. *)
Example judge_all_locked_out_example :
  let ps := [ ("a", player0 "Alice");
              ("c", with_connected false (player0 "Carol")) ] in
  post (handle_judge (single_room (playing ps ["a"] ∅) ["a"; "c"]) "h"
          (Some false) (Some false))
  = single_room (with_round_active false (playing ps [] {[ "a" ]}))
      ["a"; "c"].
Proof. vm_compute. reflexivity. Qed.

(** *** [buzz] *)

Lemma lookup_set_room (code : string) (r : Room) (st : State) :
  rooms (set_room code r st) !! code = Some r.
Proof. apply lookup_insert_eq. Qed.

Lemma sessions_set_room (code : string) (r : Room) (st : State) :
  player_sessions (set_room code r st) = player_sessions st.
Proof. reflexivity. Qed.

Lemma handle_buzz_refused (st : State) (sid : string) :
  buzz_refused st sid → handle_buzz st sid = done st [].
Proof.
  unfold buzz_refused, room_of, handle_buzz.
  destruct (player_sessions st !! sid) as [code|]; [|done].
  destruct (rooms st !! code) as [room|]; [|done].
  intros [Hr | [Hp | [Hq | Hl]]].
  - by rewrite Hr.
  - destruct (round_active room); [|done]. by rewrite Hp.
  - destruct (round_active room); [|done].
    destruct (dict_get sid (players room)); [|done].
    by rewrite (bool_decide_eq_true_2 _ Hq).
  - destruct (round_active room); [|done].
    destruct (dict_get sid (players room)); [|done].
    rewrite (bool_decide_eq_true_2 _ Hl). by rewrite orb_true_r.
Qed.

(** After a buzz, accepted or not, a second buzz by the same connection is
    refused. *)
Lemma buzz_refused_after_buzz (st : State) (sid : string) :
  buzz_refused (post (handle_buzz st sid)) sid ∨ buzz_refused st sid.
Proof.
  unfold buzz_refused at 2. unfold room_of.
  destruct (player_sessions st !! sid) as [code|] eqn:Hs; [|by right].
  destruct (rooms st !! code) as [room|] eqn:Hr; [|by right].
  destruct (round_active room) eqn:Ha; [|right; by left].
  destruct (dict_get sid (players room)) as [p|] eqn:Hp;
    [|right; right; by left].
  destruct (decide (sid ∈ buzz_queue room)) as [Hq|Hq];
    [right; right; right; by left|].
  destruct (decide (sid ∈ locked_out room)) as [Hl|Hl];
    [right; right; right; by right|].
  left. unfold handle_buzz. rewrite Hs, Hr, Ha, Hp. simpl.
  rewrite (bool_decide_eq_false_2 _ Hq), (bool_decide_eq_false_2 _ Hl). simpl.
  unfold buzz_refused, room_of. simpl. rewrite Hs, lookup_insert_eq.
  right; right; left.
  destruct (current_buzzer room); simpl; set_solver.
Qed.

(** C8. Buzz is idempotent-safe: a buzz by a connection that is attached
    to no room, or has no player entry in its room, or whose room has no
    active round, or that is already in [buzz_queue] or in [locked_out],
    leaves the whole state (every room and the session directory) as it
    was and emits nothing; and buzzing twice in a row leaves the same
    state as buzzing once. *)
Theorem buzz_idempotent_safe (st : State) (sid : string) :
  (buzz_refused st sid → handle_buzz st sid = done st [])
  ∧ post (handle_buzz (post (handle_buzz st sid)) sid)
    = post (handle_buzz st sid).
Proof.
  split; [apply handle_buzz_refused|].
  destruct (buzz_refused_after_buzz st sid) as [H|H].
  - by rewrite (handle_buzz_refused _ _ H).
  - rewrite (handle_buzz_refused _ _ H). simpl.
    by rewrite (handle_buzz_refused _ _ H).
Qed.

(** Bob is queued already and buzzes again: nothing changes.  Carol
    buzzes twice: the second buzz changes nothing. *)
Lemma buzz_idempotent_safe_witness :
  let ps := [ ("a", player0 "Alice"); ("b", player0 "Bob");
              ("c", player0 "Carol") ] in
  let st := single_room (playing ps ["a"; "b"] ∅) ["a"; "b"; "c"] in
  handle_buzz st "b" = done st []
  ∧ post (handle_buzz (post (handle_buzz st "c")) "c")
    = single_room (playing ps ["a"; "b"; "c"] ∅) ["a"; "b"; "c"].
Proof.
  intros ps st. split.
  - apply (proj1 (buzz_idempotent_safe st "b")).
    right; right; left. by_decide.
  - rewrite (proj2 (buzz_idempotent_safe st "c")). vm_compute. reflexivity.
Defined.

Lemma set_room_set_room (code : string) (r1 r2 : Room) (st : State) :
  set_room code r2 (set_room code r1 st) = set_room code r2 st.
Proof. unfold set_room. simpl. by rewrite insert_insert_eq. Qed.

Lemma set_room_same (code : string) (r : Room) (st : State) :
  rooms st !! code = Some r → set_room code r st = st.
Proof.
  intros H. destruct st as [rs ss]. unfold set_room. simpl in *.
  by rewrite insert_id.
Qed.

Lemma handle_buzz_accepted (st : State) (code : string) (room : Room)
    (sid : string) :
  rooms st !! code = Some room →
  round_active room = true →
  may_buzz st code room sid →
  post (handle_buzz st sid)
  = set_room code
      (with_current_buzzer (first_buzzer room [sid])
         (with_buzz_queue (buzz_queue room ++ [sid]) room)) st.
Proof.
  intros Hr Ha (Hs & [p Hp] & Hl & Hq).
  unfold handle_buzz. rewrite Hs, Hr, Ha, Hp. simpl.
  rewrite (bool_decide_eq_false_2 _ Hq), (bool_decide_eq_false_2 _ Hl). simpl.
  unfold first_buzzer. destruct room as [? ? ? ? ? ? ? [b|] ? ? ? ? ?]; done.
Qed.

(** The state after a sequence of accepted buzzes, as the assignments of
    [handle_buzz] leave it. *)
Lemma buzz_all_accepted (st : State) (code : string)
    (room : Room) (sids : list string) :
  rooms st !! code = Some room →
  round_active room = true →
  NoDup sids →
  Forall (may_buzz st code room) sids →
  buzz_all st sids
  = set_room code
      (with_current_buzzer (first_buzzer room sids)
         (with_buzz_queue (buzz_queue room ++ sids) room)) st.
Proof.
  revert st room. induction sids as [|sid sids IH]; intros st room Hr Ha Hnd Hall.
  - simpl. rewrite app_nil_r. symmetry. apply set_room_same. rewrite Hr.
    f_equal. unfold first_buzzer.
    destruct room as [? ? ? ? ? ? ? [b|] ? ? ? ? ?]; done.
  - apply NoDup_cons in Hnd as [Hnotin Hnd].
    apply Forall_cons in Hall as [Hsid Hall].
    simpl. rewrite (handle_buzz_accepted _ _ _ _ Hr Ha Hsid).
    set (room1 := with_current_buzzer _ _).
    rewrite (IH _ room1); [| apply lookup_set_room | done | done |].
    + rewrite set_room_set_room. f_equal.
      subst room1. unfold first_buzzer. simpl.
      rewrite <- app_assoc. simpl.
      destruct room as [? ? ? ? ? ? ? [b|] ? ? ? ? ?]; done.
    + rewrite Forall_forall in Hall. apply Forall_forall.
      intros s Hin. destruct (Hall s Hin) as (Hs & Hp & Hl & Hq).
      repeat split; try done. subst room1. simpl.
      rewrite elem_of_app, list_elem_of_singleton. intros [?| ->]; done.
Qed.

(** C2. Buzzes handled one at a time on a room with an active round, by
    distinct connections that are attached to the room, have a player entry
    and are neither locked out nor queued: afterwards [buzz_queue] of the
    room is the queue it had followed by these connections in the order
    the buzzes were handled; [current_buzzer] is the first of them when it
    was [None] and is kept otherwise.  The players, the lockouts and every
    other field of the room, every other room and the sessions are as
    before. *)
Theorem buzz_queue_is_serialization_order (st : State) (code : string)
    (room : Room) (sids : list string) :
  rooms st !! code = Some room →
  round_active room = true →
  NoDup sids →
  Forall (may_buzz st code room) sids →
  ∃ room',
    rooms (buzz_all st sids) !! code = Some room'
    ∧ buzz_queue room' = (buzz_queue room ++ sids)%list
    ∧ current_buzzer room'
      = match current_buzzer room with
        | Some b => Some b
        | None => head sids
        end
    ∧ players room' = players room
    ∧ locked_out room' = locked_out room
    ∧ same_settings room room'
    ∧ (∀ code', code' ≠ code →
         rooms (buzz_all st sids) !! code' = rooms st !! code')
    ∧ player_sessions (buzz_all st sids) = player_sessions st.
Proof.
  intros Hr Ha Hnd Hall.
  rewrite (buzz_all_accepted st code room sids Hr Ha Hnd Hall).
  eexists. split; [apply lookup_set_room|].
  unfold first_buzzer, same_settings. simpl.
  split; [done|]. split; [by destruct (current_buzzer room)|].
  split; [done|]. split; [done|]. split; [done|].
  split; [|done].
  intros code' Hne. unfold set_room. simpl.
  apply lookup_insert_ne. congruence.
Qed.

(** Three players buzz in the order b, c, a on an empty queue: the queue
    is b, c, a and b is the current buzzer. *)
Lemma buzz_queue_is_serialization_order_witness :
  let room :=
    {| host_sid := "h"; host_connected := true; max_score := 10;
       players := [ ("a", {| name := "Alice"; score := 0; connected := true |});
                    ("b", {| name := "Bob"; score := 0; connected := true |});
                    ("c", {| name := "Carol"; score := 0; connected := true |}) ];
       current_song := Some song_a; round_active := true;
       buzz_queue := []; current_buzzer := None; locked_out := ∅;
       used_song_ids := {[ "s1" ]};
       game_started := true; game_ended := false; winner := None |} in
  let st :=
    {| rooms := {[ "ROOM01" := room ]};
       player_sessions :=
         {[ "h" := "ROOM01"; "a" := "ROOM01"; "b" := "ROOM01";
            "c" := "ROOM01" ]} |} in
  ∃ room',
    rooms (buzz_all st ["b"; "c"; "a"]) !! "ROOM01" = Some room'
    ∧ buzz_queue room' = ["b"; "c"; "a"]
    ∧ current_buzzer room' = Some "b"
    ∧ players room' = players room.
Proof.
  intros room st.
  destruct (buzz_queue_is_serialization_order st "ROOM01" room ["b"; "c"; "a"])
    as (room' & Hr & Hq & Hcb & Hp & _).
  - reflexivity.
  - reflexivity.
  - by_decide.
  - repeat constructor; try (by vm_compute); by_decide.
  - exists room'. repeat split; assumption.
Defined.

(** *** Dictionaries *)

Lemma dict_get_del_eq {V} (k : string) (d : list (string * V)) :
  dict_get k (dict_del k d) = None.
Proof.
  induction d as [|[k' v] d IH]; simpl; [done|].
  destruct (decide (k' = k)) as [->|Hne]; simpl; [done|].
  by rewrite decide_False.
Qed.

Lemma dict_get_del_ne {V} (k k' : string) (d : list (string * V)) :
  k ≠ k' → dict_get k' (dict_del k d) = dict_get k' d.
Proof.
  intros Hne. induction d as [|[k0 v] d IH]; simpl; [done|].
  destruct (decide (k0 = k)) as [->|Hne0]; simpl.
  - by rewrite decide_False.
  - by rewrite IH.
Qed.

Lemma dict_del_absent {V} (k : string) (d : list (string * V)) :
  dict_get k d = None → dict_del k d = d.
Proof.
  induction d as [|[k' v] d IH]; simpl; [done|].
  destruct (decide (k' = k)) as [->|Hne]; [done|].
  intros H. by rewrite IH.
Qed.

Lemma dict_get_set_eq {V} (k : string) (v : V) (d : list (string * V)) :
  dict_get k (dict_set k v d) = Some v.
Proof.
  induction d as [|[k' v'] d IH]; simpl.
  - by rewrite decide_True.
  - destruct (decide (k' = k)) as [->|Hne]; simpl.
    + by rewrite decide_True.
    + by rewrite decide_False.
Qed.

Lemma dict_get_set_ne {V} (k k' : string) (v : V) (d : list (string * V)) :
  k ≠ k' → dict_get k' (dict_set k v d) = dict_get k' d.
Proof.
  intros Hne. induction d as [|[k0 v0] d IH]; simpl.
  - by rewrite decide_False.
  - destruct (decide (k0 = k)) as [->|Hne0]; simpl.
    + by rewrite !decide_False.
    + by rewrite IH.
Qed.

Lemma dict_get_None_keys {V} (k : string) (d : list (string * V)) :
  dict_get k d = None ↔ k ∉ dict_keys d.
Proof.
  unfold dict_keys. induction d as [|[k' v] d IH]; simpl.
  - split; [intros _; apply not_elem_of_nil | done].
  - rewrite not_elem_of_cons. destruct (decide (k' = k)) as [->|Hne].
    + split; [done | intros [? _]; done].
    + rewrite IH. split; [intros H; split; [done|exact H] | intros [_ H]; exact H].
Qed.

Lemma room_eta_players (r : Room) : with_players (players r) r = r.
Proof. by destruct r. Qed.

(** *** [leave_room] followed by [judge] *)

(** C10. When the connection that is [current_buzzer] of its room emits
    [leave_room], only its player entry goes: [buzz_queue] and
    [current_buzzer] still hold its identity.  A [judge] that follows, by
    the host (or any connection attached to that room) and with any flags,
    returns with the whole state unchanged and emits nothing, because the
    buzzer has no player entry. *)
Theorem judge_ignored_after_buzzer_left (st : State) (sid code : string)
    (room : Room) :
  player_sessions st !! sid = Some code →
  rooms st !! code = Some room →
  current_buzzer room = Some sid →
  let st' := post (handle_leave_room st sid) in
  ∃ room',
    rooms st' !! code = Some room'
    ∧ room' = with_players (dict_del sid (players room)) room
    ∧ buzz_queue room' = buzz_queue room
    ∧ current_buzzer room' = Some sid
    ∧ dict_get sid (players room') = None
    ∧ ∀ host correctArtist correctTitle,
        player_sessions st' !! host = Some code →
        handle_judge st' host correctArtist correctTitle = done st' [].
Proof.
  intros Hs Hr Hcb st'.
  exists (with_players (dict_del sid (players room)) room).
  assert (rooms st' !! code
          = Some (with_players (dict_del sid (players room)) room)) as Hr'.
  { subst st'. unfold handle_leave_room. rewrite Hs, Hr.
    destruct (dict_get sid (players room)) as [p|] eqn:Hp; simpl.
    - apply lookup_insert_eq.
    - by rewrite (dict_del_absent _ _ Hp), room_eta_players. }
  split; [exact Hr'|]. split; [done|]. split; [done|]. split; [done|].
  split; [apply dict_get_del_eq|].
  intros host ca ct Hh. unfold handle_judge. rewrite Hh, Hr'. simpl.
  destruct (decide (host_sid room ≠ host)); [done|].
  rewrite Hcb. simpl. destruct (str_truthy sid); simpl; [|done].
  by rewrite dict_get_del_eq.
Qed.

(** Alice is the current buzzer and leaves; the host then judges her
    answer as correct, and nothing happens. *)
Lemma judge_ignored_after_buzzer_left_witness :
  let room :=
    playing [("a", player0 "Alice"); ("b", player0 "Bob")] ["a"; "b"] ∅ in
  let st := single_room room ["a"; "b"] in
  let st' := post (handle_leave_room st "a") in
  rooms st' !! "ROOM01"
  = Some (playing [("b", player0 "Bob")] ["a"; "b"] ∅)
  ∧ handle_judge st' "h" (Some true) (Some true) = done st' [].
Proof.
  intros room st st'.
  destruct (judge_ignored_after_buzzer_left st "a" "ROOM01" room)
    as (room' & Hr' & -> & _ & _ & _ & Hjudge); [reflexivity..|].
  split; [exact Hr' | apply Hjudge; reflexivity].
Defined.

(** *** [judge] with zero points *)

Lemma list_remove_head (x : string) (l : list string) :
  list_remove x (x :: l) = Some l.
Proof. simpl. by rewrite decide_True. Qed.




(** *** [start_round] *)

Lemma random_choice_elem {A} (rnd : nat) (first : A) (rest : list A) :
  random_choice rnd first rest ∈ first :: rest.
Proof.
  unfold random_choice. apply list_elem_of_In, nth_In.
  apply Nat.mod_upper_bound. simpl. lia.
Qed.

Lemma filter_unused_nil (songs : list Song) (room : Room) :
  filter (λ s, song_id s ∉ used_song_ids room) songs = [] ↔
  exhausted songs room.
Proof.
  unfold exhausted. rewrite Forall_forall. split.
  - intros Hnil s Hin.
    destruct (decide (song_id s ∈ used_song_ids room)) as [|Hnot]; [done|].
    by destruct (filter_nil_not_elem_of _ _ s Hnil Hnot).
  - intros Hall. destruct (filter _ songs) as [|s l] eqn:Hf; [done|].
    assert (s ∈ filter (λ s, song_id s ∉ used_song_ids room) songs) as Hin
      by (rewrite Hf; left).
    apply list_elem_of_filter in Hin as [Hnot Hin]. by destruct (Hnot (Hall s Hin)).
Qed.

(** C7. [start_round] by the host of a room whose game has not ended.
    It answers with the no-songs error exactly when the catalog is empty.
    With a non-empty catalog it draws a song of the catalog, makes it
    [current_song], sets [round_active], and empties [buzz_queue],
    [current_buzzer] and [locked_out]; when every song of the catalog was
    in [used_song_ids], that set is cleared first, so that afterwards it
    holds the drawn song only; otherwise the drawn song was unused and its
    id is added. *)
Theorem start_round_resets_exhausted_pool (songs : list Song) (st : State)
    (host code : string) (room : Room) (rnd : nat) :
  player_sessions st !! host = Some code →
  rooms st !! code = Some room →
  host_sid room = host →
  game_ended room = false →
  let out := handle_start_round songs st host rnd in
  (effects out = [Emit (Ev_error ErrNoSongsAvailable) ToSender] ↔ songs = [])
  ∧ (songs ≠ [] →
     ∃ song used,
       song ∈ songs
       ∧ post out = set_room code (round_started_room song used room) st
       ∧ raised out = None
       ∧ Emit (Ev_round_started song) (ToGroup (host_group code)) ∈ effects out
       ∧ (exhausted songs room → used = {[ song_id song ]})
       ∧ (¬ exhausted songs room →
          (song_id song ∉ used_song_ids room)
          ∧ used = used_song_ids room ∪ {[ song_id song ]})).
Proof.
  intros Hs Hr Hh Hge out. subst out. unfold handle_start_round.
  rewrite Hs, Hr, Hge. rewrite decide_False by (intros H; by apply H).
  destruct (filter _ songs) as [|f l] eqn:Hf.
  - apply filter_unused_nil in Hf as Hex.
    destruct songs as [|first rest]; simpl.
    + split; [done|]. by intros [].
    + split; [split; discriminate|]. intros _.
      exists (random_choice rnd first rest), {[ song_id (random_choice rnd first rest) ]}.
      split; [apply random_choice_elem|].
      split; [by rewrite (left_id_L ∅ (∪))|].
      split; [done|]. split; [left|]. split; [done|]. by intros [].
  - assert (∀ s, s ∈ f :: l → (song_id s ∉ used_song_ids room) ∧ s ∈ songs)
      as Hsub.
    { intros s Hin. rewrite <- Hf in Hin. by apply list_elem_of_filter in Hin. }
    assert (¬ exhausted songs room) as Hnex.
    { intros Hex. apply filter_unused_nil in Hex. congruence. }
    assert (songs ≠ []) as Hne.
    { intros ->. discriminate Hf. }
    destruct (Hsub _ (random_choice_elem rnd f l)) as [Hunused Hin].
    simpl. split; [split; [discriminate | done]|]. intros _.
    exists (random_choice rnd f l),
      (used_song_ids room ∪ {[ song_id (random_choice rnd f l) ]}).
    split; [done|]. split; [done|]. split; [done|]. split; [left|].
    split; [done|]. by intros _.
Qed.

(** Both songs of the catalog were played: the pool is reset and a song
    of the catalog is drawn again. *)
Lemma start_round_resets_exhausted_pool_witness :
  let room :=
    with_used_song_ids {[ "s1"; "s2" ]}
      (lobby [("a", player0 "Alice")]) in
  let st := single_room room ["a"] in
  ∃ song,
    song ∈ catalog
    ∧ post (handle_start_round catalog st "h" 1)
      = set_room "ROOM01"
          (round_started_room song {[ song_id song ]} room) st.
Proof.
  intros room st.
  destruct (start_round_resets_exhausted_pool catalog st "h" "ROOM01" room 1)
    as [_ Hok]; [reflexivity..|].
  destruct Hok as (song & used & Hin & Hpost & _ & _ & Hused & _); [done|].
  exists song. split; [exact Hin|]. rewrite Hpost, Hused; [done|].
  repeat constructor; by_decide.
Defined.

(** *** [get_room_state] *)

(** C4. The player view ([for_host=False]) of a room never has the
    current song; the host view of the same room is the player view plus
    the room's current song, when one is set; and two rooms that differ
    only in [current_song] have the same player view. *)
Theorem player_view_hides_current_song (st : State) (code : string)
    (room : Room) :
  rooms st !! code = Some room →
  ∃ view,
    get_room_state st code false = Some view
    ∧ rv_currentSong view = None
    ∧ get_room_state st code true
      = Some (add_current_song (current_song room) view)
    ∧ ∀ st2 room2,
        rooms st2 !! code = Some room2 →
        same_up_to_current_song room2 room →
        get_room_state st2 code false = Some view.
Proof.
  intros Hr. exists (room_view code room false).
  unfold get_room_state. rewrite Hr.
  split; [done|]. split; [done|]. split; [done|].
  intros st2 room2 Hr2 Hsame. rewrite Hr2. f_equal.
  unfold same_up_to_current_song in Hsame.
  destruct room, room2. by injection Hsame as -> -> -> -> -> -> -> -> -> -> -> ->.
Qed.

(** A round on [song_a]: the host view has the song, the player view has
    not, and the player view is the same when the song is [song_b]. *)
Lemma player_view_hides_current_song_witness :
  let room := playing [("a", player0 "Alice")] ["a"] ∅ in
  let st := single_room room ["a"] in
  let st2 := single_room (with_current_song (Some song_b) room) ["a"] in
  ∃ view,
    get_room_state st "ROOM01" false = Some view
    ∧ rv_currentSong view = None
    ∧ get_room_state st "ROOM01" true
      = Some (add_current_song (Some song_a) view)
    ∧ get_room_state st2 "ROOM01" false = Some view.
Proof.
  intros room st st2.
  destruct (player_view_hides_current_song st "ROOM01" room)
    as (view & Hp & Hnone & Hh & Hsame); [reflexivity|].
  exists view. split; [exact Hp|]. split; [exact Hnone|]. split; [exact Hh|].
  apply (Hsame st2 (with_current_song (Some song_b) room)); reflexivity.
Defined.

(** *** [join_room] *)

Lemma find_existing_spec (str_lower : string → string)
    (ps : list (string * Player)) (player_name old : string) :
  find_existing str_lower ps player_name = Some old →
  ∃ p, (old, p) ∈ ps
       ∧ str_lower (name p) = str_lower player_name
       ∧ connected p = false.
Proof.
  induction ps as [|[psid p] ps IH]; simpl; [done|].
  destruct (bool_decide _ && negb (connected p)) eqn:Hm.
  - intros [= ->]. exists p. apply andb_true_iff in Hm as [Hn Hc].
    apply bool_decide_eq_true in Hn. apply negb_true_iff in Hc.
    split; [left | done].
  - intros H. destruct (IH H) as (q & Hin & Hq). exists q.
    split; [by right | done].
Qed.

Lemma dict_get_elem {V} (k : string) (v : V) (d : list (string * V)) :
  NoDup (dict_keys d) → (k, v) ∈ d → dict_get k d = Some v.
Proof.
  unfold dict_keys. induction d as [|[k' v'] d IH]; simpl.
  - intros _ H. by apply elem_of_nil in H.
  - intros [Hnotin Hnd]%NoDup_cons [[= -> ->]|Hin]%elem_of_cons.
    + by rewrite decide_True.
    + destruct (decide (k' = k)) as [->|Hne]; [|by apply IH].
      destruct Hnotin. apply list_elem_of_fmap. by exists (k, v).
Qed.

Lemma dict_get_is_Some {V} (k : string) (v : V) (d : list (string * V)) :
  (k, v) ∈ d → is_Some (dict_get k d).
Proof.
  intros Hin. destruct (dict_get k d) eqn:Hg; [done|].
  apply dict_get_None_keys in Hg. destruct Hg.
  unfold dict_keys. apply list_elem_of_fmap. by exists (k, v).
Qed.

Lemma substitute_ne (old new x : string) : new ≠ old → substitute old new x ≠ old.
Proof. unfold substitute. intros Hne. by destruct (decide (x = old)). Qed.

Lemma str_truthy_ne (s : string) : s ≠ "" → str_truthy s = true.
Proof. by destruct s. Qed.

Lemma rejoin_player_fields (sid old : string) (pd : Player) (room : Room) :
  rejoin_player sid old pd room
  = with_locked_out
      (if decide (old ∈ locked_out room)
       then (locked_out room ∖ {[old]}) ∪ {[sid]} else locked_out room)
      (with_current_buzzer (substitute old sid <$> current_buzzer room)
         (with_buzz_queue (substitute old sid <$> buzz_queue room)
            (with_players
               (dict_set sid (with_connected true pd)
                  (dict_del old (players room))) room))).
Proof.
  unfold rejoin_player. simpl.
  assert ((if decide (current_buzzer room = Some old)
           then Some sid else current_buzzer room)
          = substitute old sid <$> current_buzzer room) as Hcb.
  { unfold substitute. destruct (current_buzzer room) as [b|]; simpl;
      repeat case_decide; congruence. }
  rewrite <- Hcb.
  destruct (decide (current_buzzer room = Some old)); simpl;
    destruct (decide (old ∈ locked_out room)); reflexivity.
Qed.

(** The rejoin branch of [join_room], for the player [old] that the scan
    of the handler finds: what the handler's assignments leave. *)
Lemma join_room_rejoins_found_player
    (str_upper str_lower str_strip : string → string)
    (st : State) (sid : string) (roomCode playerName : option string)
    (room : Room) (old : string) :
  let room_code := str_upper (default "" roomCode) in
  let player_name := str_strip (default "" playerName) in
  room_code ≠ "" →
  player_name ≠ "" →
  rooms st !! room_code = Some room →
  game_ended room = false →
  find_existing str_lower (players room) player_name = Some old →
  old ≠ "" →
  ¬ occurs_in sid room →
  let out :=
    handle_join_room str_upper str_lower str_strip st sid roomCode playerName
  in
  ∃ player_data room',
    dict_get old (players room) = Some player_data
    ∧ (NoDup (dict_keys (players room)) →
       connected player_data = false
       ∧ str_lower (name player_data) = str_lower player_name)
    ∧ post out = set_session sid room_code (set_room room_code room' st)
    ∧ raised out = None
    ∧ dict_get sid (players room') = Some (with_connected true player_data)
    ∧ (∀ other, other ≠ sid → other ≠ old →
         dict_get other (players room') = dict_get other (players room))
    ∧ buzz_queue room' = substitute old sid <$> buzz_queue room
    ∧ current_buzzer room' = substitute old sid <$> current_buzzer room
    ∧ (sid ∈ locked_out room' ↔ old ∈ locked_out room)
    ∧ (∀ other, other ≠ sid → other ≠ old →
         other ∈ locked_out room' ↔ other ∈ locked_out room)
    ∧ ¬ occurs_in old room'
    ∧ room' = with_locked_out (locked_out room')
                (with_current_buzzer (current_buzzer room')
                   (with_buzz_queue (buzz_queue room')
                      (with_players (players room') room))).
Proof.
  intros room_code player_name Hcode Hname Hr Hge Hfind Hold Hfresh out.
  destruct (find_existing_spec _ _ _ _ Hfind) as (p & Hin & Hpn & Hpc).
  destruct (dict_get_is_Some _ _ _ Hin) as [pd Hpd].
  assert (sid ≠ old) as Hne.
  { intros ->. apply Hfresh. left. unfold dict_keys.
    apply list_elem_of_fmap. by exists (old, p). }
  assert (sid ∉ locked_out room) as Hsl.
  { intros H. apply Hfresh. by do 3 right. }
  exists pd, (rejoin_player sid old pd room).
  split; [exact Hpd|].
  split.
  { intros Hnd. rewrite (dict_get_elem _ _ _ Hnd Hin) in Hpd.
    by injection Hpd as <-. }
  split.
  { subst out. unfold handle_join_room. fold room_code player_name.
    rewrite (str_truthy_ne _ Hcode), (str_truthy_ne _ Hname). simpl.
    by rewrite Hr, Hge, Hfind, (str_truthy_ne _ Hold), Hpd. }
  split.
  { subst out. unfold handle_join_room. fold room_code player_name.
    rewrite (str_truthy_ne _ Hcode), (str_truthy_ne _ Hname). simpl.
    by rewrite Hr, Hge, Hfind, (str_truthy_ne _ Hold), Hpd. }
  rewrite rejoin_player_fields. simpl.
  split; [apply dict_get_set_eq|].
  split.
  { intros other Hns Hno. rewrite dict_get_set_ne by done.
    by apply dict_get_del_ne. }
  split; [done|]. split; [done|].
  split.
  { destruct (decide (old ∈ locked_out room)) as [Ho|Ho].
    - rewrite elem_of_union, elem_of_singleton. split; [done | by right].
    - split; intros ?; done. }
  split.
  { intros other Hns Hno.
    destruct (decide (old ∈ locked_out room)) as [Ho|Ho]; [|done].
    rewrite elem_of_union, elem_of_difference, !elem_of_singleton.
    split; [intros [[? _]|?]; done | intros ?; by left]. }
  split; [|done].
  unfold occurs_in. simpl. intros [Hk | [Hq | [Hc | Hl]]].
  - apply dict_get_None_keys in Hk; [done|].
    rewrite dict_get_set_ne by done. apply dict_get_del_eq.
  - apply list_elem_of_fmap in Hq as (x & Hx & _).
    symmetry in Hx. by apply substitute_ne in Hx.
  - destruct (current_buzzer room) as [b|]; [|done]. simpl in Hc.
    injection Hc as Hx. by apply substitute_ne in Hx.
  - destruct (decide (old ∈ locked_out room)) as [Ho|Ho]; [|done].
    apply elem_of_union in Hl as [Hx|Hx].
    + apply elem_of_difference in Hx as [_ Hx]. by apply Hx, elem_of_singleton.
    + apply elem_of_singleton in Hx. by apply Hne.
Qed.

Lemma find_existing_first_match (str_lower : string → string)
    (ps : list (string * Player)) (player_name old : string) (p : Player) :
  first_disconnected_match str_lower ps player_name old p →
  find_existing str_lower ps player_name = Some old.
Proof.
  intros (i & Hi & Hc & Hn & Hfirst). revert i Hi Hfirst.
  induction ps as [|[k q] ps IH]; intros i Hi Hfirst; [done|].
  simpl. destruct i as [|i]; simpl in Hi.
  - injection Hi as -> ->.
    by rewrite (bool_decide_eq_true_2 _ Hn), Hc.
  - destruct (bool_decide _ && negb (connected q)) eqn:Hm.
    + apply andb_true_iff in Hm as [Hqn Hqc].
      apply bool_decide_eq_true in Hqn. apply negb_true_iff in Hqc.
      destruct (Hfirst 0%nat k q); [lia | done | done].
    + apply (IH i Hi). intros j k' q' Hj Hjq.
      apply (Hfirst (S j) k' q'); [lia | done].
Qed.

Lemma lookup_dict_get {V} (i : nat) (k : string) (v : V)
    (d : list (string * V)) :
  NoDup (dict_keys d) → d !! i = Some (k, v) → dict_get k d = Some v.
Proof.
  intros Hnd Hi. apply dict_get_elem; [done|].
  by apply list_elem_of_lookup_2 in Hi.
Qed.

(** C3, as stated, fails when two disconnected players of a room have
    names that differ in case only.  After the events [two_bobs] the room
    holds "Bob" (connection b1, score 0) and "bob" (connection b2, score
    1, current buzzer), both disconnected.  A join as "BOB" by the new
    connection n matches both names; n gets the record of "Bob", the
    first of the two in joining order, while the record of "bob" stays
    with b2: b2 keeps its entry, its place in the queue and
    [current_buzzer]. *)
Lemma rejoin_takes_first_of_two_matches :
  run_ascii initial_state two_bobs = Some two_bobs_state
  ∧ dict_get "b2" (players two_bobs_room)
    = Some {| name := "bob"; score := 1; connected := false |}
  ∧ ascii_lower "bob" = ascii_lower (ascii_strip "BOB")
  ∧ rooms (post (handle_join_room ascii_upper ascii_lower ascii_strip
                   two_bobs_state "n" (Some "AAAAAA") (Some "BOB")))
      !! "AAAAAA"
    = Some two_bobs_rejoined_room
  ∧ dict_get "n" (players two_bobs_rejoined_room)
    = Some {| name := "Bob"; score := 0; connected := true |}
  ∧ dict_get "b2" (players two_bobs_rejoined_room)
    = Some {| name := "bob"; score := 1; connected := false |}
  ∧ buzz_queue two_bobs_rejoined_room = ["b2"; "n"]
  ∧ current_buzzer two_bobs_rejoined_room = Some "b2".
Proof. repeat split; vm_compute; reflexivity. Qed.

(** C3, amended. A [join_room] by a connection [sid] that does not yet
    occur in the room, while the game has not ended, with a name that
    equals, up to case, the name of a disconnected player: the record of
    the first such player in joining order, [player_data] under the
    connection [old], moves to [sid] with name and score as they were and
    [connected] set; [sid] stands for [old] at the same positions of
    [buzz_queue], in [current_buzzer] and in [locked_out]; the entry of
    [old] is gone and [old] occurs nowhere among the player identities of
    the room.  Every other player entry, every other field of the room
    ([host_sid] among them), every other room and every other session is
    as before; [sid] is attached to the room. *)
Theorem rejoin_transfers_player
    (str_upper str_lower str_strip : string → string)
    (st : State) (sid : string) (roomCode playerName : option string)
    (room : Room) (old : string) (player_data : Player) :
  let room_code := str_upper (default "" roomCode) in
  let player_name := str_strip (default "" playerName) in
  room_code ≠ "" →
  player_name ≠ "" →
  rooms st !! room_code = Some room →
  game_ended room = false →
  NoDup (dict_keys (players room)) →
  first_disconnected_match str_lower (players room) player_name old
    player_data →
  old ≠ "" →
  ¬ occurs_in sid room →
  let out :=
    handle_join_room str_upper str_lower str_strip st sid roomCode playerName
  in
  ∃ room' player_data',
    raised out = None
    ∧ rooms (post out) !! room_code = Some room'
    ∧ dict_get sid (players room') = Some player_data'
    ∧ name player_data' = name player_data
    ∧ score player_data' = score player_data
    ∧ connected player_data' = true
    ∧ dict_get old (players room') = None
    ∧ (∀ other, other ≠ sid → other ≠ old →
         dict_get other (players room') = dict_get other (players room))
    ∧ buzz_queue room' = substitute old sid <$> buzz_queue room
    ∧ current_buzzer room' = substitute old sid <$> current_buzzer room
    ∧ (sid ∈ locked_out room' ↔ old ∈ locked_out room)
    ∧ (∀ other, other ≠ sid → other ≠ old →
         other ∈ locked_out room' ↔ other ∈ locked_out room)
    ∧ ¬ occurs_in old room'
    ∧ same_settings room room'
    ∧ (∀ code', code' ≠ room_code →
         rooms (post out) !! code' = rooms st !! code')
    ∧ player_sessions (post out) !! sid = Some room_code
    ∧ (∀ other, other ≠ sid →
         player_sessions (post out) !! other = player_sessions st !! other).
Proof.
  intros room_code player_name Hcode Hname Hr Hge Hnd Hmatch Hold Hfresh out.
  pose proof (find_existing_first_match _ _ _ _ _ Hmatch) as Hfind.
  destruct Hmatch as (i & Hi & _).
  pose proof (lookup_dict_get _ _ _ _ Hnd Hi) as Hdata.
  destruct (join_room_rejoins_found_player str_upper str_lower str_strip st sid
              roomCode playerName room old Hcode Hname Hr Hge Hfind Hold Hfresh)
    as (pd & room' & Hpd & _ & Hpost & Hraised & Hn & Hother & Hq & Hcb & Hl
        & Hlo & Hocc & Hframe).
  fold room_code player_name out in Hpost, Hraised.
  rewrite Hdata in Hpd. injection Hpd as <-.
  exists room', (with_connected true player_data).
  split; [exact Hraised|].
  rewrite Hpost. unfold set_session, set_room. simpl.
  split; [apply lookup_insert_eq|].
  split; [exact Hn|].
  split; [done|]. split; [done|]. split; [done|].
  split.
  { apply dict_get_None_keys. intros Hk. apply Hocc. by left. }
  split; [exact Hother|]. split; [exact Hq|]. split; [exact Hcb|].
  split; [exact Hl|]. split; [exact Hlo|]. split; [exact Hocc|].
  split.
  { unfold same_settings. rewrite Hframe. simpl. done. }
  split.
  { intros code' Hne. apply lookup_insert_ne. congruence. }
  split; [apply lookup_insert_eq|].
  intros other Hne. apply lookup_insert_ne. congruence.
Qed.

(** Bob (3 points, second in the queue) lost his connection ["b"]; the new
    connection ["n"] joins room ["room01"] as [" bob "] and takes his
    entry, his score and his place in the queue. *)
Lemma rejoin_transfers_player_witness :
  let bob := {| name := "Bob"; score := 3; connected := false |} in
  let room :=
    {| host_sid := "h"; host_connected := true; max_score := 10;
       players := [ ("a", {| name := "Alice"; score := 0; connected := true |});
                    ("b", bob) ];
       current_song := Some song_a; round_active := true;
       buzz_queue := ["a"; "b"]; current_buzzer := Some "a"; locked_out := ∅;
       used_song_ids := {[ "s1" ]};
       game_started := true; game_ended := false; winner := None |} in
  let st :=
    {| rooms := {[ "ROOM01" := room ]};
       player_sessions := {[ "h" := "ROOM01"; "a" := "ROOM01" ]} |} in
  let out :=
    handle_join_room ascii_upper ascii_lower ascii_strip st "n"
      (Some "room01") (Some " bob ") in
  ∃ room',
    rooms (post out) !! "ROOM01" = Some room'
    ∧ dict_get "n" (players room')
      = Some {| name := "Bob"; score := 3; connected := true |}
    ∧ dict_get "b" (players room') = None
    ∧ buzz_queue room' = ["a"; "n"]
    ∧ current_buzzer room' = Some "a"
    ∧ player_sessions (post out) !! "n" = Some "ROOM01".
Proof.
  intros bob room st out.
  destruct (rejoin_transfers_player ascii_upper ascii_lower ascii_strip
              st "n" (Some "room01") (Some " bob ") room "b" bob)
    as (room' & pd & _ & Hr & Hn & Hname & Hscore & Hconn & Hb & _ & Hq & Hcb
        & _ & _ & _ & _ & _ & Hs & _).
  - done.
  - done.
  - reflexivity.
  - reflexivity.
  - by_decide.
  - exists 1%nat. split; [reflexivity|]. split; [reflexivity|].
    split; [reflexivity|].
    intros j k q Hj Hjq. destruct j as [|j]; [|lia].
    injection Hjq as <- <-. by intros [? _].
  - done.
  - unfold occurs_in. by_decide.
  - exists room'. split; [exact Hr|].
    split.
    { rewrite Hn. f_equal. destruct pd as [n s c]. simpl in *. by subst. }
    split; [exact Hb|]. split; [exact Hq|]. split; [exact Hcb|]. exact Hs.
Defined.

(** C6, as stated, fails: with eight player entries of which only seven
    are connected, a join under a name that matches no disconnected player
    is refused with the room-full error, although fewer than eight players
    are connected. *)
Lemma join_room_full_with_seven_connected :
  length (connected_players (lobby eight_players)) = 7%nat
  ∧ find_existing ascii_lower eight_players (ascii_strip "Yan") = None
  ∧ handle_join_room ascii_upper ascii_lower ascii_strip full_state "x"
      (Some "ROOM01") (Some "Yan")
    = done full_state [Emit (Ev_error ErrRoomFull) ToSender].
Proof. repeat split; reflexivity. Qed.

(** C6, amended. A [join_room] with a non-empty room code and name, into
    an existing room: when the game has ended it is refused with the
    game-already-ended error; otherwise, when the name matches no
    disconnected player, it is refused with the room-full error exactly
    when the room has at least eight player entries, connected or not.
    A refused join leaves the whole state unchanged. *)
Theorem join_room_full_counts_all_players
    (str_upper str_lower str_strip : string → string)
    (st : State) (sid : string) (roomCode playerName : option string)
    (room : Room) :
  let room_code := str_upper (default "" roomCode) in
  let player_name := str_strip (default "" playerName) in
  room_code ≠ "" →
  player_name ≠ "" →
  rooms st !! room_code = Some room →
  let out :=
    handle_join_room str_upper str_lower str_strip st sid roomCode playerName
  in
  (game_ended room = true →
   out = done st [Emit (Ev_error ErrGameAlreadyEnded) ToSender])
  ∧ (game_ended room = false →
     find_existing str_lower (players room) player_name = None →
     (out = done st [Emit (Ev_error ErrRoomFull) ToSender]
      ↔ (8 ≤ length (players room))%nat)).
Proof.
  intros room_code player_name Hcode Hname Hr out.
  subst out. unfold handle_join_room. fold room_code player_name.
  rewrite (str_truthy_ne _ Hcode), (str_truthy_ne _ Hname), Hr. simpl.
  split.
  - by intros ->.
  - intros -> ->. unfold join_new_player.
    destruct (8 <=? length (players room))%nat eqn:Hlen.
    + apply Nat.leb_le in Hlen. done.
    + apply Nat.leb_gt in Hlen. split; [|lia].
      intros H. apply (f_equal effects) in H. discriminate H.
Qed.

Lemma join_room_full_counts_all_players_witness :
  handle_join_room ascii_upper ascii_lower ascii_strip full_state "x"
    (Some "room01") (Some "Yan")
  = done full_state [Emit (Ev_error ErrRoomFull) ToSender].
Proof.
  destruct (join_room_full_counts_all_players
              ascii_upper ascii_lower ascii_strip full_state "x"
              (Some "room01") (Some "Yan") (lobby eight_players))
    as [_ Hfull]; [done | done | reflexivity |].
  apply Hfull; [reflexivity | reflexivity | simpl; lia].
Defined.

(** *** Event sequences from the empty server *)

(** C1 fails for [judge]: after [end_game_with_buzzer] the game has ended
    and Alice, with 0 points, is still [current_buzzer]; a [judge] by the
    host is carried out: it gives her 2 points and clears
    [current_buzzer]. *)
Lemma judge_accepted_after_end_game :
  run_ascii initial_state end_game_with_buzzer = Some ended_state
  ∧ game_ended ended_room = true
  ∧ post (handle_judge ended_state "h" (Some true) (Some true))
    = set_room "AAAAAA"
        (with_current_buzzer None
           (with_players [("a", with_score 2 (player0 "Alice"))] ended_room))
        ended_state.
Proof. repeat split; vm_compute; reflexivity. Qed.

(** C9 fails on a reachable state: after [rejoin_as_locked_out_player]
    the current buzzer ["a"] is in [locked_out]. *)
Lemma current_buzzer_locked_out_after_rejoin :
  run_ascii initial_state rejoin_as_locked_out_player
  = Some {| rooms := {[ "AAAAAA" := taken_over_room ]};
            player_sessions := {[ "h" := "AAAAAA"; "a" := "AAAAAA" ]} |}
  ∧ current_buzzer taken_over_room = Some "a"
  ∧ "a" ∈ locked_out taken_over_room.
Proof.
  split; [vm_compute; reflexivity|]. split; [reflexivity | by_decide].
Qed.

(** *** Invariants of the reachable states *)

Lemma state_inv_set_room code r st :
  state_inv st → room_inv r → state_inv (set_room code r st).
Proof.
  intros Hst Hr code' r'. unfold set_room. simpl.
  rewrite lookup_insert. case_decide; [by intros [= <-] | apply Hst].
Qed.

(** Splits on every test a handler makes and reduces the goal to the
    invariant of the one room it stored, if any, with the invariant of
    the room it read at hand. *)
Ltac handler_cases Hinv :=
  repeat case_match; simpl in *; try exact Hinv;
  try (apply state_inv_set_room; [exact Hinv|]);
  try match goal with
  | Hr : rooms _ !! _ = Some ?r |- _ =>
      let Hge := fresh "Hge" in
      let Hcb := fresh "Hcb" in
      destruct (Hinv _ _ Hr) as [Hge Hcb]; unfold room_inv; simpl
  end;
  repeat match goal with
  | H : current_buzzer ?r = _, Hcb : context [current_buzzer ?r] |- _ =>
      rewrite H in Hcb
  | H : current_buzzer ?r = _ |- context [current_buzzer ?r] => rewrite H
  end;
  try done.

Section invariants.
Variables str_upper str_lower str_strip : string → string.
Variable songs : list Song.

Lemma handle_buzz_inv st sid :
  state_inv st → state_inv (post (handle_buzz st sid)).
Proof.
  intros Hinv. unfold handle_buzz. handler_cases Hinv.
  - split; [done|]. by destruct (buzz_queue _).
  - split; [done|]. destruct (round_active _); [|done]. by rewrite Hcb.
Qed.

Lemma handle_disconnect_inv st sid :
  state_inv st → state_inv (post (handle_disconnect st sid)).
Proof.
  intros Hinv. unfold handle_disconnect. handler_cases Hinv.
Qed.

Lemma handle_leave_room_inv st sid :
  state_inv st → state_inv (post (handle_leave_room st sid)).
Proof.
  intros Hinv. unfold handle_leave_room. handler_cases Hinv.
Qed.

Lemma handle_start_game_inv st sid :
  state_inv st → state_inv (post (handle_start_game st sid)).
Proof.
  intros Hinv. unfold handle_start_game. handler_cases Hinv.
Qed.

Lemma handle_start_round_inv st sid rnd :
  state_inv st → state_inv (post (handle_start_round songs st sid rnd)).
Proof.
  intros Hinv. unfold handle_start_round. handler_cases Hinv.
  all: simplify_eq/=; try done.
  all: split; [congruence | done].
Qed.

Lemma handle_skip_round_inv st sid :
  state_inv st → state_inv (post (handle_skip_round st sid)).
Proof.
  intros Hinv. unfold handle_skip_round. handler_cases Hinv.
Qed.

Lemma handle_end_game_inv st sid :
  state_inv st → state_inv (post (handle_end_game st sid)).
Proof.
  intros Hinv. unfold handle_end_game. handler_cases Hinv.
  all: split; [done|]; by destruct (current_buzzer _).
Qed.

Lemma handle_host_rejoin_inv st sid roomCode :
  state_inv st → state_inv (post (handle_host_rejoin str_upper st sid roomCode)).
Proof.
  intros Hinv. unfold handle_host_rejoin. handler_cases Hinv.
Qed.

Lemma handle_get_room_state_inv st sid :
  state_inv st → state_inv (post (handle_get_room_state st sid)).
Proof.
  intros Hinv. unfold handle_get_room_state. handler_cases Hinv.
Qed.

Lemma handle_judge_inv st sid ca ct :
  state_inv st → state_inv (post (handle_judge st sid ca ct)).
Proof.
  intros Hinv. unfold handle_judge. handler_cases Hinv.
  all: split; [done|];
    match goal with |- context [head ?l] => by destruct l end.
Qed.

Lemma rejoin_player_inv sid old pd room :
  room_inv room → room_inv (rejoin_player sid old pd room).
Proof.
  intros [Hge Hcb]. rewrite rejoin_player_fields. split; [done|]. simpl.
  destruct (current_buzzer room) as [b|]; simpl.
  - destruct (buzz_queue room); simplify_eq/=. done.
  - intros Ha. by rewrite (Hcb Ha).
Qed.

Lemma handle_join_room_inv st sid roomCode playerName :
  state_inv st →
  state_inv (post (handle_join_room str_upper str_lower str_strip st sid
                     roomCode playerName)).
Proof.
  intros Hinv. unfold handle_join_room, join_new_player, joined.
  repeat case_match; simpl; try exact Hinv.
  - apply (state_inv_set_room _ _ st Hinv). apply rejoin_player_inv. eauto.
  - apply (state_inv_set_room _ _ st Hinv).
    match goal with Hr : rooms _ !! _ = Some _ |- _ => apply (Hinv _ _ Hr) end.
  - apply (state_inv_set_room _ _ st Hinv).
    match goal with Hr : rooms _ !! _ = Some _ |- _ => apply (Hinv _ _ Hr) end.
Qed.

Lemma handle_create_room_inv st sid maxScore draws out :
  state_inv st →
  handle_create_room st sid maxScore draws = Some out →
  state_inv (post out).
Proof.
  intros Hinv. unfold handle_create_room. case_match; [|done].
  intros [= <-]. simpl. by apply (state_inv_set_room _ _ st Hinv).
Qed.

Lemma handle_inv st ev out :
  state_inv st →
  handle str_upper str_lower str_strip songs st ev = Some out →
  state_inv (post out).
Proof.
  intros Hinv. destruct ev; simpl;
    try (intros [= <-]);
    eauto using handle_disconnect_inv, handle_create_room_inv,
      handle_join_room_inv, handle_leave_room_inv, handle_start_game_inv,
      handle_start_round_inv, handle_buzz_inv, handle_judge_inv,
      handle_skip_round_inv, handle_end_game_inv, handle_host_rejoin_inv,
      handle_get_room_state_inv.
Qed.

Lemma run_inv evs st st' :
  state_inv st →
  run str_upper str_lower str_strip songs st evs = Some st' →
  state_inv st'.
Proof.
  revert st. induction evs as [|ev evs IH]; simpl; intros st Hinv.
  - by intros [= <-].
  - destruct (handle _ _ _ _ st ev) as [out|] eqn:Hout; [|done].
    apply IH. by apply (handle_inv st ev).
Qed.

Theorem reachable_state_inv st :
  reachable str_upper str_lower str_strip songs st → state_inv st.
Proof.
  intros [evs Hrun]. apply (run_inv evs initial_state); [|done].
  intros code r. unfold initial_state. simpl. by rewrite lookup_empty.
Qed.

Lemma handle_judge_no_exception st sid ca ct :
  state_inv st → raised (handle_judge st sid ca ct) = None.
Proof.
  intros Hinv. unfold handle_judge. repeat case_match; simpl; try done.
  match goal with Hr : rooms _ !! _ = Some ?r |- _ =>
    destruct (Hinv _ _ Hr) as [_ Hcb] end.
  simplify_eq/=.
  match goal with H : current_buzzer _ = Some _ |- _ => rewrite H in Hcb end.
  destruct (buzz_queue _); simplify_eq/=. by rewrite decide_True in *.
Qed.

Lemma handle_join_room_no_exception st sid roomCode playerName :
  raised (handle_join_room str_upper str_lower str_strip st sid
            roomCode playerName) = None.
Proof.
  unfold handle_join_room, join_new_player, joined.
  repeat case_match; simpl; try done.
  match goal with H : find_existing _ _ _ = Some _ |- _ =>
    destruct (find_existing_spec _ _ _ _ H) as (p & Hin & _) end.
  destruct (dict_get_is_Some _ _ _ Hin) as [? ?]. congruence.
Qed.

Lemma handle_end_game_no_exception st sid :
  raised (handle_end_game st sid) = None.
Proof.
  unfold handle_end_game. repeat case_match; simpl; try done.
  all: match goal with H : get_room_state _ _ _ = None |- _ =>
         unfold get_room_state in H; rewrite lookup_set_room in H end; done.
Qed.

(** X1. For payloads of the types of [Event] (the payload an object,
    [maxScore] an integer, [roomCode] and [playerName] strings, the flags
    of [judge] booleans, each of them possibly absent), no handler that
    runs on a reachable state is left by an exception: [pop] in the rejoin
    branch of [join_room] finds the entry, [remove] in [judge] finds the
    buzzer in the queue, and [end_game] finds the room it reports.  What
    the source does on payloads of other types is outside the model. *)
Theorem reachable_no_exception st ev out :
  reachable str_upper str_lower str_strip songs st →
  handle str_upper str_lower str_strip songs st ev = Some out →
  raised out = None.
Proof.
  intros Hinv%reachable_state_inv. destruct ev; simpl; intros Hout;
    try (injection Hout as <-);
    auto using handle_judge_no_exception, handle_join_room_no_exception,
      handle_end_game_no_exception.
  all: try (unfold handle_disconnect, handle_leave_room, handle_start_game,
              handle_start_round, handle_buzz, handle_skip_round,
              handle_host_rejoin, handle_get_room_state;
            repeat case_match; done).
  unfold handle_create_room in Hout. case_match; [|done]. by injection Hout as <-.
Qed.

(** X2. In a reachable state the current buzzer, when set, is the head
    of the buzz queue. *)
Theorem reachable_current_buzzer_is_head st code room b :
  reachable str_upper str_lower str_strip songs st →
  rooms st !! code = Some room →
  current_buzzer room = Some b →
  head (buzz_queue room) = Some b ∧ b ∈ buzz_queue room.
Proof.
  intros Hinv%reachable_state_inv Hr Hcb.
  destruct (Hinv _ _ Hr) as [_ Hhead]. rewrite Hcb in Hhead.
  split; [done|]. destruct (buzz_queue room); simplify_eq/=. left.
Qed.

(** X3. In a reachable state, once the game of a room has ended,
    [start_round] and [buzz] by a connection attached to that room return
    with the state unchanged. *)
Theorem ended_game_refuses_start_round_and_buzz st sid room rnd :
  reachable str_upper str_lower str_strip songs st →
  room_of st sid = Some room →
  game_ended room = true →
  handle_start_round songs st sid rnd = done st []
  ∧ handle_buzz st sid = done st [].
Proof.
  intros Hinv%reachable_state_inv Hroom Hge. unfold room_of in Hroom.
  destruct (player_sessions st !! sid) as [code|] eqn:Hs; [|done].
  destruct (Hinv _ _ Hroom) as [Hra _].
  unfold handle_start_round, handle_buzz. rewrite Hs, Hroom, Hge, (Hra Hge).
  split; [|done]. by destruct (decide _).
Qed.

(** *** The queue and the lockout set under fresh joins *)

Lemma state_queue_inv_set_room code r st :
  state_queue_inv st → queue_inv r → state_queue_inv (set_room code r st).
Proof.
  intros Hst Hr code' r'. unfold set_room. simpl.
  rewrite lookup_insert. case_decide; [by intros [= <-] | apply Hst].
Qed.

Ltac queue_cases Hinv :=
  repeat case_match; simpl; try exact Hinv;
  try (apply state_queue_inv_set_room; [exact Hinv|]);
  try match goal with
  | Hr : rooms _ !! _ = Some ?r |- _ =>
      let Hq := fresh "Hq" in
      pose proof (Hinv _ _ Hr) as Hq; try exact Hq
  end.

Lemma handle_buzz_queue_inv st sid :
  state_queue_inv st → state_queue_inv (post (handle_buzz st sid)).
Proof.
  intros Hinv. unfold handle_buzz. queue_cases Hinv.
  all: destruct Hq as [Hnd Hlo];
    match goal with H : _ || _ = false |- _ =>
      apply orb_false_iff in H as [Hq%bool_decide_eq_false Hl%bool_decide_eq_false]
    end.
  all: split; simpl.
  all: try (apply NoDup_app; split; [done|]; split; [|apply NoDup_singleton];
            intros x Hx ->%list_elem_of_singleton; done).
  all: intros x [Hx| ->%list_elem_of_singleton]%elem_of_app; auto.
Qed.

Lemma handle_disconnect_queue_inv st sid :
  state_queue_inv st → state_queue_inv (post (handle_disconnect st sid)).
Proof. intros Hinv. unfold handle_disconnect. queue_cases Hinv. Qed.

Lemma handle_leave_room_queue_inv st sid :
  state_queue_inv st → state_queue_inv (post (handle_leave_room st sid)).
Proof. intros Hinv. unfold handle_leave_room. queue_cases Hinv. Qed.

Lemma handle_start_game_queue_inv st sid :
  state_queue_inv st → state_queue_inv (post (handle_start_game st sid)).
Proof. intros Hinv. unfold handle_start_game. queue_cases Hinv. Qed.

Lemma handle_start_round_queue_inv st sid rnd :
  state_queue_inv st →
  state_queue_inv (post (handle_start_round songs st sid rnd)).
Proof.
  intros Hinv. unfold handle_start_round. queue_cases Hinv.
  all: simplify_eq; try exact Hq.
  all: split; simpl; [apply NoDup_nil_2 | by intros x ?%elem_of_nil].
Qed.

Lemma handle_skip_round_queue_inv st sid :
  state_queue_inv st → state_queue_inv (post (handle_skip_round st sid)).
Proof.
  intros Hinv. unfold handle_skip_round. queue_cases Hinv.
  split; simpl; [apply NoDup_nil_2 | by intros x ?%elem_of_nil].
Qed.

Lemma handle_end_game_queue_inv st sid :
  state_queue_inv st → state_queue_inv (post (handle_end_game st sid)).
Proof. intros Hinv. unfold handle_end_game. queue_cases Hinv. Qed.

Lemma handle_host_rejoin_queue_inv st sid roomCode :
  state_queue_inv st →
  state_queue_inv (post (handle_host_rejoin str_upper st sid roomCode)).
Proof. intros Hinv. unfold handle_host_rejoin. queue_cases Hinv. Qed.

Lemma handle_get_room_state_queue_inv st sid :
  state_queue_inv st → state_queue_inv (post (handle_get_room_state st sid)).
Proof. intros Hinv. unfold handle_get_room_state. queue_cases Hinv. Qed.

Lemma handle_judge_queue_inv st sid ca ct :
  state_inv st →
  state_queue_inv st → state_queue_inv (post (handle_judge st sid ca ct)).
Proof.
  intros Hri Hinv. unfold handle_judge. queue_cases Hinv.
  all: match goal with
       | Hr : rooms _ !! _ = Some ?r, Hcb : current_buzzer ?r = Some _ |- _ =>
           destruct (Hri _ _ Hr) as [_ Hhead]; rewrite Hcb in Hhead
       end.
  all: destruct Hq as [Hnd Hlo]; unfold queue_inv; simpl in *.
  all: destruct (buzz_queue _) as [|b q]; simplify_eq/=.
  all: match goal with H : context [decide (?x = ?x)] |- _ =>
         rewrite decide_True in H by done end; simplify_eq.
  all: apply NoDup_cons in Hnd as [Hb Hnd]; split; [done|].
  all: intros x Hx [Hl| ->%elem_of_singleton]%elem_of_union;
         [by apply (Hlo x); [right|] | done].
Qed.

Lemma rejoin_player_queue_inv sid old pd room :
  ¬ occurs_in sid room →
  queue_inv room → queue_inv (rejoin_player sid old pd room).
Proof.
  intros Hfresh [Hnd Hlo]. rewrite rejoin_player_fields.
  assert (sid ∉ buzz_queue room) as Hsq.
  { intros H. apply Hfresh. right. by left. }
  assert (sid ∉ locked_out room) as Hsl.
  { intros H. apply Hfresh. by do 3 right. }
  split; simpl.
  - apply NoDup_fmap_2_strong; [|done].
    intros x y Hx Hy. unfold substitute. repeat case_decide; congruence.
  - intros x' (x & -> & Hx)%list_elem_of_fmap. unfold substitute.
    specialize (Hlo x Hx).
    destruct (decide (x = old)) as [->|Hne];
      destruct (decide (old ∈ locked_out room)) as [Ho|Ho]; try done.
    intros [[? _]%elem_of_difference | ->%elem_of_singleton]%elem_of_union;
      done.
Qed.

Lemma handle_join_room_queue_inv st sid roomCode playerName :
  fresh_join str_upper st (JoinRoom sid roomCode playerName) →
  state_queue_inv st →
  state_queue_inv (post (handle_join_room str_upper str_lower str_strip st sid
                           roomCode playerName)).
Proof.
  intros Hfresh Hinv. simpl in Hfresh.
  unfold handle_join_room, join_new_player, joined.
  repeat case_match; simpl; try exact Hinv.
  - apply (state_queue_inv_set_room _ _ st Hinv).
    apply rejoin_player_queue_inv; eauto.
  - apply (state_queue_inv_set_room _ _ st Hinv).
    match goal with Hr : rooms _ !! _ = Some _ |- _ => apply (Hinv _ _ Hr) end.
  - apply (state_queue_inv_set_room _ _ st Hinv).
    match goal with Hr : rooms _ !! _ = Some _ |- _ => apply (Hinv _ _ Hr) end.
Qed.

Lemma handle_create_room_queue_inv st sid maxScore draws out :
  state_queue_inv st →
  handle_create_room st sid maxScore draws = Some out →
  state_queue_inv (post out).
Proof.
  intros Hinv. unfold handle_create_room. case_match; [|done].
  intros [= <-]. simpl. apply (state_queue_inv_set_room _ _ st Hinv).
  split; simpl; [apply NoDup_nil_2 | by intros x ?%elem_of_nil].
Qed.

Lemma handle_queue_inv st ev out :
  fresh_join str_upper st ev →
  state_inv st →
  state_queue_inv st →
  handle str_upper str_lower str_strip songs st ev = Some out →
  state_queue_inv (post out).
Proof.
  intros Hfresh Hri Hinv. destruct ev; simpl;
    try (intros [= <-]);
    eauto using handle_disconnect_queue_inv, handle_create_room_queue_inv,
      handle_join_room_queue_inv, handle_leave_room_queue_inv,
      handle_start_game_queue_inv, handle_start_round_queue_inv,
      handle_buzz_queue_inv, handle_judge_queue_inv,
      handle_skip_round_queue_inv, handle_end_game_queue_inv,
      handle_host_rejoin_queue_inv, handle_get_room_state_queue_inv.
Qed.

Lemma run_queue_inv evs st st' :
  state_inv st →
  state_queue_inv st →
  fresh_joins str_upper str_lower str_strip songs st evs →
  run str_upper str_lower str_strip songs st evs = Some st' →
  state_queue_inv st'.
Proof.
  revert st. induction evs as [|ev evs IH]; simpl; intros st Hri Hinv Hfresh.
  - by intros [= <-].
  - destruct Hfresh as [Hev Hfresh].
    destruct (handle _ _ _ _ st ev) as [out|] eqn:Hout; [|done].
    apply IH; [by apply (handle_inv st ev) | by apply (handle_queue_inv st ev)
              | done].
Qed.

(** X4. As long as no connection that already occurs in a room joins it
    again, the current buzzer, when set, is in the buzz queue and not
    locked out. *)
Theorem current_buzzer_not_locked_out_with_fresh_joins evs st code room b :
  run str_upper str_lower str_strip songs initial_state evs = Some st →
  fresh_joins str_upper str_lower str_strip songs initial_state evs →
  rooms st !! code = Some room →
  current_buzzer room = Some b →
  b ∈ buzz_queue room ∧ b ∉ locked_out room.
Proof.
  intros Hrun Hfresh Hr Hcb.
  assert (state_inv initial_state) as Hi0.
  { intros c r. unfold initial_state. simpl. by rewrite lookup_empty. }
  assert (state_queue_inv initial_state) as Hq0.
  { intros c r. unfold initial_state. simpl. by rewrite lookup_empty. }
  destruct (run_inv evs _ _ Hi0 Hrun _ _ Hr) as [_ Hhead].
  destruct (run_queue_inv evs _ _ Hi0 Hq0 Hfresh Hrun _ _ Hr) as [_ Hlo].
  rewrite Hcb in Hhead.
  assert (b ∈ buzz_queue room) as Hin.
  { destruct (buzz_queue room); simplify_eq/=. left. }
  split; [done | by apply Hlo].
Qed.
End invariants.

(** One event of a concrete sequence: its [fresh_join] condition is settled
    by evaluation, and the state it leaves is evaluated for the rest. *)
Ltac fresh_joins_step :=
  split;
  [ first [ exact I
          | intros room Hr; vm_compute in Hr;
            first [discriminate Hr | injection Hr as <-];
            unfold occurs_in; by_decide ]
  | cbn [fresh_joins handle];
    match goal with
    | |- context [handle_create_room ?st ?sid ?m ?draws] =>
        let r := eval vm_compute in (handle_create_room st sid m draws) in
        change (handle_create_room st sid m draws) with r; cbv beta iota
    | |- fresh_joins _ _ _ _ (post ?out) _ =>
        let r := eval vm_compute in (post out) in
        change (post out) with r
    | _ => idtac
    end ].

(** The joins of the scenario of the specification are fresh. *)
Example alice_wins_has_fresh_joins :
  fresh_joins ascii_upper ascii_lower ascii_strip catalog initial_state
    alice_wins.
Proof. unfold alice_wins. repeat fresh_joins_step. exact I. Qed.

(** ** Further properties of the handlers *)

(** *** Host-only events *)

(** X6. [start_game], [start_round], [judge], [skip_round] and [end_game]
    by a connection that is not the host of the room it is attached to
    leave the whole state unchanged. *)
Theorem host_only_events_ignore_other_connections (songs : list Song)
    (st : State) (sid : string) (rnd : nat)
    (correctArtist correctTitle : option bool) :
  not_host st sid →
  post (handle_start_game st sid) = st
  ∧ handle_start_round songs st sid rnd = done st []
  ∧ handle_judge st sid correctArtist correctTitle = done st []
  ∧ handle_skip_round st sid = done st []
  ∧ handle_end_game st sid = done st [].
Proof.
  unfold not_host, room_of, handle_start_game, handle_start_round,
    handle_judge, handle_skip_round, handle_end_game.
  destruct (player_sessions st !! sid) as [code|]; [|done].
  destruct (rooms st !! code) as [room|]; [|done].
  intros Hne. by rewrite !decide_True.
Qed.

(** Bob, a player, tries every host-only event in the middle of a
    round. *)
Lemma host_only_events_ignore_other_connections_witness :
  let st :=
    single_room (playing [("a", player0 "Alice"); ("b", player0 "Bob")]
                   ["a"] ∅) ["a"; "b"] in
  post (handle_start_game st "b") = st
  ∧ handle_start_round catalog st "b" 0 = done st []
  ∧ handle_judge st "b" (Some true) (Some true) = done st []
  ∧ handle_skip_round st "b" = done st []
  ∧ handle_end_game st "b" = done st [].
Proof.
  intros st.
  apply (host_only_events_ignore_other_connections catalog st "b" 0).
  unfold not_host. by_decide.
Defined.

(** *** [judge] with one or two points *)

(** X5. A [judge] by the host with at least one flag set, on a current
    buzzer that has a player entry: the buzzer's score grows by the number
    of flags set (1 or 2) and no other entry changes; the round ends and
    [current_buzzer] is cleared, while [buzz_queue] and [locked_out] stay;
    the game ends, with the buzzer as winner, exactly when the new score
    reaches [max_score]. *)
Theorem judge_awards_points (st : State) (host code buzzer_sid : string)
    (room : Room) (buzzer : Player) (correctArtist correctTitle : option bool) :
  player_sessions st !! host = Some code →
  rooms st !! code = Some room →
  host_sid room = host →
  current_buzzer room = Some buzzer_sid →
  buzzer_sid ≠ "" →
  dict_get buzzer_sid (players room) = Some buzzer →
  0 < judge_points correctArtist correctTitle →
  let points := judge_points correctArtist correctTitle in
  let out := handle_judge st host correctArtist correctTitle in
  points ≤ 2
  ∧ post out = set_room code (awarded_room buzzer_sid buzzer points room) st
  ∧ raised out = None
  ∧ dict_get buzzer_sid (players (awarded_room buzzer_sid buzzer points room))
    = Some (with_score (score buzzer + points) buzzer)
  ∧ (∀ other, other ≠ buzzer_sid →
       dict_get other (players (awarded_room buzzer_sid buzzer points room))
       = dict_get other (players room))
  ∧ (game_ended (awarded_room buzzer_sid buzzer points room) = true
     ↔ max_score room ≤ score buzzer + points ∨ game_ended room = true).
Proof.
  intros Hs Hr Hh Hcb Hne Hp Hpos points out.
  split. { subst points. unfold judge_points. repeat case_match; lia. }
  assert (out = done (set_room code
                        (awarded_room buzzer_sid buzzer points room) st)
                  (effects out)) as Hout.
  { subst out points. unfold handle_judge, judge_points in *.
    rewrite Hs, Hr, Hcb. simpl.
    rewrite decide_False by (intros H; by apply H).
    rewrite (str_truthy_ne _ Hne), Hp. simpl.
    rewrite (proj2 (Z.ltb_lt _ _) Hpos). simpl.
    unfold awarded_room, done. simpl. f_equal. f_equal.
    destruct (max_score room <=? _); by destruct room. }
  split; [by rewrite Hout|]. split; [by rewrite Hout|].
  split; [apply dict_get_set_eq|].
  split; [intros other Ho; by apply dict_get_set_ne|].
  unfold awarded_room. simpl.
  destruct (max_score room <=? score buzzer + points) eqn:Hw.
  - apply Z.leb_le in Hw. split; [by left | done].
  - apply Z.leb_gt in Hw. split; [by right | intros [?|?]; [lia | done]].
Qed.

(** Alice, at 1 point in a game to 2, is judged right on the title only:
    she reaches 2 points and wins. *)
Lemma judge_awards_points_witness :
  let alice := with_score 1 (player0 "Alice") in
  let room := {| host_sid := "h"; host_connected := true; max_score := 2;
                 players := [("a", alice); ("b", player0 "Bob")];
                 current_song := Some song_a;
                 round_active := true; buzz_queue := ["a"; "b"];
                 current_buzzer := Some "a"; locked_out := ∅;
                 used_song_ids := ∅; game_started := true;
                 game_ended := false; winner := None |} in
  let st := single_room room ["a"; "b"] in
  post (handle_judge st "h" None (Some true))
  = set_room "ROOM01" (awarded_room "a" alice 1 room) st
  ∧ game_ended (awarded_room "a" alice 1 room) = true
  ∧ winner (awarded_room "a" alice 1 room) = Some "Alice".
Proof.
  intros alice room st.
  destruct (judge_awards_points st "h" "ROOM01" "a" room alice None (Some true))
    as (_ & Hpost & _); [reflexivity.. | done | reflexivity | reflexivity |].
  split; [exact Hpost | split; reflexivity].
Defined.

(** *** [create_room] and [generate_room_code] *)

Lemma code_char_in_alphabet (i : nat) : code_char i ∈ code_alphabet.
Proof.
  unfold code_char. apply list_elem_of_In, nth_In.
  change (length code_alphabet) with 36%nat. apply Nat.mod_upper_bound. lia.
Qed.

Lemma code_of_draw_well_formed (d : Draw) : well_formed_code (code_of_draw d).
Proof.
  destruct d as [[[[[a b] c] d] e] f]. unfold well_formed_code, code_of_draw.
  split; [reflexivity|].
  rewrite list_ascii_of_string_of_list_ascii. simpl.
  repeat (apply Forall_cons; split; [apply code_char_in_alphabet|]).
  apply Forall_nil_2.
Qed.

Lemma generate_room_code_spec (rs : gmap string Room) (draws : list Draw)
    (code : string) :
  generate_room_code rs draws = Some code →
  rs !! code = None ∧ ∃ d, d ∈ draws ∧ code = code_of_draw d.
Proof.
  induction draws as [|d draws IH]; simpl; [done|].
  destruct (rs !! code_of_draw d) eqn:Hd.
  - intros H. destruct (IH H) as (Hfree & d' & Hin & ->).
    split; [done|]. exists d'. split; [by right | done].
  - intros [= <-]. split; [done|]. exists d. split; [left | done].
Qed.

Lemma generate_room_code_finds (rs : gmap string Room) (draws : list Draw)
    (d : Draw) :
  d ∈ draws → rs !! code_of_draw d = None →
  is_Some (generate_room_code rs draws).
Proof.
  induction draws as [|d' draws IH]; simpl.
  - by intros ?%elem_of_nil.
  - intros [->|Hin]%elem_of_cons Hfree.
    + by rewrite Hfree.
    + destruct (rs !! code_of_draw d'); [by apply IH | done].
Qed.

(** X9. [create_room] ends as soon as the generator draws a code that no
    room uses, so it ends when one of the draws is free.  The code it
    takes is free, is six characters of upper-case letters and digits,
    and the new room is stored under it with the creator as connected
    host, no players and no round; every existing room and every other
    session stay as they were. *)
Theorem create_room_takes_free_code (st : State) (sid : string)
    (maxScore : option Z) (draws : list Draw) (d : Draw) :
  d ∈ draws →
  rooms st !! code_of_draw d = None →
  ∃ code out,
    handle_create_room st sid maxScore draws = Some out
    ∧ rooms st !! code = None
    ∧ well_formed_code code
    ∧ raised out = None
    ∧ rooms (post out) = <[code := new_room sid (default 10 maxScore)]> (rooms st)
    ∧ player_sessions (post out) = <[sid := code]> (player_sessions st)
    ∧ (∀ code' room, rooms st !! code' = Some room →
         rooms (post out) !! code' = Some room).
Proof.
  intros Hin Hfree.
  destruct (generate_room_code_finds _ _ _ Hin Hfree) as [code Hcode].
  destruct (generate_room_code_spec _ _ _ Hcode) as (Hnone & d' & _ & Hd').
  exists code. eexists. unfold handle_create_room. rewrite Hcode.
  split; [done|]. split; [done|].
  split; [rewrite Hd'; apply code_of_draw_well_formed|].
  split; [done|]. split; [done|]. split; [done|].
  intros code' room Hr. simpl. rewrite lookup_insert_ne; [done|].
  intros ->. congruence.
Qed.

(** The first draw gives the code of an existing room, the second one is
    free. *)
Lemma create_room_takes_free_code_witness :
  let st := {| rooms := {[ "AAAAAA" := lobby [] ]};
               player_sessions := {[ "h" := "AAAAAA" ]} |} in
  let draws := [(0, 0, 0, 0, 0, 0)%nat; (1, 2, 3, 4, 5, 6)%nat] in
  ∃ out,
    handle_create_room st "g" (Some 5) draws = Some out
    ∧ rooms (post out) !! "BCDEFG" = Some (new_room "g" 5)
    ∧ rooms (post out) !! "AAAAAA" = Some (lobby []).
Proof.
  intros st draws.
  destruct (create_room_takes_free_code st "g" (Some 5) draws
              (1, 2, 3, 4, 5, 6)%nat)
    as (code & out & Hout & _ & _ & _ & Hrooms & _ & Hkeep);
    [by_decide | reflexivity |].
  exists out. split; [exact Hout|].
  vm_compute in Hout. injection Hout as <-. split; reflexivity.
Defined.

(** *** The host leaves and comes back *)



(** *** Rooms are independent and permanent *)

(** X7. Whatever the event, every room other than the one the event is
    about is left exactly as it was. *)
Theorem handlers_touch_one_room
    (str_upper str_lower str_strip : string → string) (songs : list Song)
    (st : State) (ev : Event) (out : Outcome) (code : string) :
  handle str_upper str_lower str_strip songs st ev = Some out →
  event_room str_upper st ev ≠ Some code →
  rooms (post out) !! code = rooms st !! code.
Proof.
  intros Hout Hother.
  assert (∀ c r, c ≠ code → rooms (set_room c r st) !! code = rooms st !! code)
    as Hset.
  { intros c r Hc. unfold set_room. simpl. by apply lookup_insert_ne. }
  destruct ev; simpl in *.
  all: try (injection Hout as <-).
  - unfold handle_disconnect. repeat case_match; simpl; try done.
    all: apply Hset; congruence.
  - unfold handle_create_room in Hout. case_match; [|done].
    injection Hout as <-. simpl. apply lookup_insert_ne. congruence.
  - unfold handle_join_room, join_new_player, joined.
    repeat case_match; simpl; try done. all: apply Hset; congruence.
  - unfold handle_leave_room. repeat case_match; simpl; try done.
    apply Hset; congruence.
  - unfold handle_start_game. repeat case_match; simpl; try done.
    apply Hset; congruence.
  - unfold handle_start_round. repeat case_match; simpl; try done.
    all: apply Hset; congruence.
  - unfold handle_buzz. repeat case_match; simpl; try done.
    all: apply Hset; congruence.
  - unfold handle_judge. repeat case_match; simpl; try done.
    all: apply Hset; congruence.
  - unfold handle_skip_round. repeat case_match; simpl; try done.
    apply Hset; congruence.
  - unfold handle_end_game. repeat case_match; simpl; try done.
    all: apply Hset; congruence.
  - unfold handle_host_rejoin. repeat case_match; simpl; try done.
    apply Hset; congruence.
  - unfold handle_get_room_state. repeat case_match; simpl; done.
Qed.

Lemma handlers_touch_one_room_witness :
  let st :=
    {| rooms :=
         {[ "ROOM01" := playing [("a", player0 "Alice")] [] ∅;
            "ROOM02" := playing [("b", player0 "Bob")] [] ∅ ]};
       player_sessions := {[ "a" := "ROOM01"; "b" := "ROOM02" ]} |} in
  rooms (post (handle_buzz st "a")) !! "ROOM01"
  = Some (playing [("a", player0 "Alice")] ["a"] ∅)
  ∧ rooms (post (handle_buzz st "a")) !! "ROOM02"
    = Some (playing [("b", player0 "Bob")] [] ∅).
Proof.
  intros st. split; [vm_compute; reflexivity|].
  rewrite (handlers_touch_one_room ascii_upper ascii_lower ascii_strip catalog
             st (Buzz "a") (handle_buzz st "a") "ROOM02");
    [reflexivity | reflexivity | by vm_compute].
Defined.

Lemma room_persists_refl (room : Room) : room_persists room room.
Proof. by repeat split. Qed.

Lemma room_persists_trans (r1 r2 r3 : Room) :
  room_persists r1 r2 → room_persists r2 r3 → room_persists r1 r3.
Proof.
  intros (Hm1 & Hs1 & He1) (Hm2 & Hs2 & He2).
  repeat split; [congruence | auto | auto].
Qed.

(** The room stored under [code] after [set_room c r]: [r] when [c] is
    [code], the old one otherwise. *)
Lemma persists_set_room (st : State) (c code : string) (r0 r room : Room) :
  rooms st !! c = Some r0 →
  rooms st !! code = Some room →
  room_persists r0 r →
  ∃ room', rooms (set_room c r st) !! code = Some room'
           ∧ room_persists room room'.
Proof.
  intros Hc Hcode Hp. unfold set_room. simpl.
  destruct (decide (c = code)) as [->|Hne].
  - rewrite lookup_insert_eq. exists r. split; [done|]. congruence.
  - rewrite lookup_insert_ne by done. exists room.
    split; [done | apply room_persists_refl].
Qed.

Ltac persists_cases :=
  repeat case_match; simpl;
  try (eexists; split; [eassumption | apply room_persists_refl]);
  try (eapply persists_set_room; [eassumption | eassumption |]);
  simplify_eq/=.

Section persistence.
Variables str_upper str_lower str_strip : string → string.
Variable songs : list Song.

Lemma handle_persists (st : State) (ev : Event) (out : Outcome)
    (code : string) (room : Room) :
  handle str_upper str_lower str_strip songs st ev = Some out →
  rooms st !! code = Some room →
  ∃ room', rooms (post out) !! code = Some room' ∧ room_persists room room'.
Proof.
  intros Hout Hr. destruct ev; simpl in Hout.
  all: try (injection Hout as <-).
  - unfold handle_disconnect. persists_cases.
    all: by repeat split.
  - unfold handle_create_room in Hout. case_match eqn:Hg; [|done].
    injection Hout as <-. simpl.
    apply generate_room_code_spec in Hg as [Hfree _].
    rewrite lookup_insert_ne by (intros ->; congruence).
    exists room. split; [done | apply room_persists_refl].
  - unfold handle_join_room, join_new_player, joined. persists_cases.
    + rewrite rejoin_player_fields. by repeat split.
    + by repeat split.
    + by repeat split.
  - unfold handle_leave_room. persists_cases. by repeat split.
  - unfold handle_start_game. persists_cases. by repeat split.
  - unfold handle_start_round. persists_cases. all: by repeat split.
  - unfold handle_buzz. persists_cases. all: by repeat split.
  - unfold handle_judge. persists_cases. all: by repeat split.
  - unfold handle_skip_round. persists_cases. by repeat split.
  - unfold handle_end_game. persists_cases. all: by repeat split.
  - unfold handle_host_rejoin. persists_cases. by repeat split.
  - unfold handle_get_room_state. persists_cases.
Qed.

(** X8. No sequence of events removes a room, changes its [max_score], or
    resets [game_started] or [game_ended] once they are set. *)
Theorem rooms_are_permanent (st st' : State) (evs : list Event)
    (code : string) (room : Room) :
  run str_upper str_lower str_strip songs st evs = Some st' →
  rooms st !! code = Some room →
  ∃ room', rooms st' !! code = Some room' ∧ room_persists room room'.
Proof.
  revert st room. induction evs as [|ev evs IH]; simpl; intros st room Hrun Hr.
  - injection Hrun as <-. exists room. split; [done | apply room_persists_refl].
  - destruct (handle _ _ _ _ st ev) as [out|] eqn:Hout; [|done].
    destruct (handle_persists _ _ _ _ _ Hout Hr) as (r1 & Hr1 & Hp1).
    destruct (IH _ _ Hrun Hr1) as (r2 & Hr2 & Hp2).
    exists r2. split; [done | by eapply room_persists_trans].
Qed.
End persistence.

Lemma rooms_are_permanent_witness :
  let evs := [ StartRound "h" 1; Buzz "a"; Judge "h" (Some true) None;
               SkipRound "h"; LeaveRoom "a"; Disconnect "h";
               HostRejoin "n" (Some "aaaaaa") ] in
  ∃ st' room',
    run_ascii ended_state evs = Some st'
    ∧ rooms st' !! "AAAAAA" = Some room'
    ∧ max_score room' = 10
    ∧ game_ended room' = true.
Proof.
  intros evs.
  destruct (run_ascii ended_state evs) as [st'|] eqn:Hrun;
    [|vm_compute in Hrun; discriminate Hrun].
  destruct (rooms_are_permanent ascii_upper ascii_lower ascii_strip catalog
              ended_state st' evs "AAAAAA" ended_room Hrun)
    as (room' & Hr' & Hmax & _ & Hended); [reflexivity|].
  exists st', room'. split; [done|]. split; [done|].
  split; [exact Hmax | by apply Hended].
Defined.

(** *** [end_game] *)

Lemma foldl_max_first (p : Player) (l : list Player) :
  first_maximum (p :: l)
    (foldl (λ best q, if score best <? score q then q else best) p l).
Proof.
  revert p. induction l as [|q l IH]; intros p; simpl.
  - exists 0%nat. split; [done|]. split.
    + intros [|j] q Hq; simplify_eq/=; lia.
    + intros j q Hj. lia.
  - destruct (score p <? score q) eqn:Hlt.
    + apply Z.ltb_lt in Hlt.
      destruct (IH q) as (i & Hi & Hmax & Hfirst).
      pose proof (Hmax 0%nat q eq_refl) as Hq.
      exists (S i). split; [done|]. split.
      * intros [|j] r Hr; simplify_eq/=; [lia | by apply (Hmax j)].
      * intros [|j] r Hj Hr; simplify_eq/=; [lia|].
        apply (Hfirst j); [lia | done].
    + apply Z.ltb_ge in Hlt.
      destruct (IH p) as (i & Hi & Hmax & Hfirst).
      destruct i as [|i].
      * simpl in Hi. injection Hi as Hi. exists 0%nat. rewrite <- Hi.
        split; [done|]. split.
        -- intros [|[|j]] r Hr; simplify_eq/=; try lia.
           rewrite Hi. by apply (Hmax (S j)).
        -- intros j r Hj. lia.
      * exists (S (S i)). split; [done|].
        pose proof (Hfirst 0%nat p ltac:(lia) eq_refl) as Hp.
        split.
        -- intros [|[|j]] r Hr; simplify_eq/=; try lia.
           by apply (Hmax (S j)).
        -- intros [|[|j]] r Hj Hr; simplify_eq/=; try lia.
           apply (Hfirst (S j)); [lia | done].
Qed.

(** X13. [end_game] by the host ends the game and the round.  With at
    least one player entry it names as winner the first player, in
    joining order, with the highest score, connected or not; with no entry
    it leaves [winner] as it was.  Players, queue, current buzzer and
    lockouts stay as they are. *)
Theorem end_game_names_first_top_scorer (st : State) (host code : string)
    (room : Room) :
  player_sessions st !! host = Some code →
  rooms st !! code = Some room →
  host_sid room = host →
  let out := handle_end_game st host in
  let ended := with_round_active false (with_game_ended true room) in
  raised out = None
  ∧ (players room = [] → post out = set_room code ended st)
  ∧ (players room ≠ [] →
     ∃ w,
       first_maximum (players room).*2 w
       ∧ post out = set_room code (with_winner (Some (name w)) ended) st).
Proof.
  intros Hs Hr Hh out ended. subst out ended. unfold handle_end_game.
  rewrite Hs, Hr. rewrite decide_False by (intros H; by apply H). simpl.
  unfold get_room_state. rewrite lookup_set_room.
  split; [done|].
  destruct (players room) as [|[k p] ps] eqn:Hps; simpl.
  - split; [done | by intros []].
  - split; [done|]. intros _.
    exists (foldl (λ best q, if score best <? score q then q else best)
              p ps.*2).
    split; [apply foldl_max_first | done].
Qed.

(** Bob and Carol both have 3 points, Alice has 1: Bob, who joined before
    Carol, is the winner. *)
Lemma end_game_names_first_top_scorer_witness :
  let ps := [ ("a", with_score 1 (player0 "Alice"));
              ("b", with_score 3 (player0 "Bob"));
              ("c", with_connected false (with_score 3 (player0 "Carol"))) ] in
  let room := playing ps ["a"] ∅ in
  let st := single_room room ["a"; "b"] in
  post (handle_end_game st "h")
  = set_room "ROOM01"
      (with_winner (Some "Bob")
         (with_round_active false (with_game_ended true room))) st.
Proof.
  intros ps room st.
  destruct (end_game_names_first_top_scorer st "h" "ROOM01" room)
    as (_ & _ & Hwin); [reflexivity | reflexivity | reflexivity |].
  destruct Hwin as (w & Hw & Hpost); [done|].
  assert (name w = "Bob") as Hname.
  { apply (f_equal (λ s, winner <$> rooms s !! "ROOM01")) in Hpost.
    vm_compute in Hpost. injection Hpost as Hbob. exact (eq_sym Hbob). }
  by rewrite Hpost, Hname.
Defined.

(** *** The player list of [get_room_state] *)

Lemma insert_by_score_perm (p : PlayerView) (l : list PlayerView) :
  insert_by_score p l ≡ₚ p :: l.
Proof.
  induction l as [|q l IH]; simpl; [done|].
  destruct (pv_score p <? pv_score q); [|done].
  rewrite IH. apply Permutation_swap.
Qed.

Lemma insert_by_score_sorted (p : PlayerView) (l : list PlayerView) :
  by_score_desc l → by_score_desc (insert_by_score p l).
Proof.
  unfold by_score_desc. induction l as [|q l IH]; simpl; intros Hl.
  - repeat constructor.
  - apply StronglySorted_inv in Hl as [Hl Hq].
    destruct (pv_score p <? pv_score q) eqn:Hlt.
    + apply Z.ltb_lt in Hlt. constructor; [by apply IH|].
      rewrite insert_by_score_perm. constructor; [lia | done].
    + apply Z.ltb_ge in Hlt. constructor; [by constructor|].
      constructor; [done|]. eapply Forall_impl; [exact Hq|].
      simpl. intros r Hr. lia.
Qed.

Lemma sort_by_score_desc_perm (l : list PlayerView) :
  sort_by_score_desc l ≡ₚ l.
Proof.
  unfold sort_by_score_desc. induction l as [|p l IH]; simpl; [done|].
  by rewrite insert_by_score_perm, IH.
Qed.

Lemma sort_by_score_desc_sorted (l : list PlayerView) :
  by_score_desc (sort_by_score_desc l).
Proof.
  unfold sort_by_score_desc. induction l as [|p l IH]; simpl.
  - constructor.
  - by apply insert_by_score_sorted.
Qed.

Lemma sort_by_score_desc_id (l : list PlayerView) :
  by_score_desc l → sort_by_score_desc l = l.
Proof.
  unfold by_score_desc, sort_by_score_desc.
  induction l as [|p l IH]; simpl; intros Hl; [done|].
  apply StronglySorted_inv in Hl as [Hl Hp]. rewrite (IH Hl).
  destruct l as [|q l]; simpl; [done|].
  apply Forall_cons in Hp as [Hq _].
  by rewrite (proj2 (Z.ltb_ge _ _) Hq).
Qed.

(** X10. The player list of a room view lists every player entry of the
    room exactly once, in non-increasing order of score; when the entries
    already are in that order (as they are while all scores are equal) the
    list keeps the order in which the players joined. *)
Theorem room_view_lists_players_by_score (st : State) (code : string)
    (room : Room) (for_host : bool) :
  rooms st !! code = Some room →
  ∃ view,
    get_room_state st code for_host = Some view
    ∧ rv_players view ≡ₚ player_view room <$> players room
    ∧ by_score_desc (rv_players view)
    ∧ (by_score_desc (player_view room <$> players room) →
       rv_players view = player_view room <$> players room).
Proof.
  intros Hr. exists (room_view code room for_host).
  unfold get_room_state. rewrite Hr. simpl.
  split; [done|]. split; [apply sort_by_score_desc_perm|].
  split; [apply sort_by_score_desc_sorted | apply sort_by_score_desc_id].
Qed.

Lemma room_view_lists_players_by_score_witness :
  let ps := [ ("a", with_score 1 (player0 "Alice"));
              ("b", with_score 3 (player0 "Bob"));
              ("c", with_score 1 (player0 "Carol")) ] in
  let st := single_room (lobby ps) ["a"; "b"; "c"] in
  ∃ view,
    get_room_state st "ROOM01" false = Some view
    ∧ pv_name <$> rv_players view = ["Bob"; "Alice"; "Carol"]
    ∧ by_score_desc (rv_players view).
Proof.
  intros ps st.
  destruct (room_view_lists_players_by_score st "ROOM01" (lobby ps) false)
    as (view & Hview & _ & Hsorted & _); [reflexivity|].
  exists view. split; [exact Hview|]. split; [|exact Hsorted].
  vm_compute in Hview. by injection Hview as <-.
Defined.

Lemma omap_buzzer_view_ids (room : Room) (queue : list string) :
  bv_id <$> omap (buzzer_view room) queue
  = filter (λ sid, is_Some (dict_get sid (players room))) queue.
Proof.
  induction queue as [|sid queue IH]; [done|].
  rewrite filter_cons.
  change (omap (buzzer_view room) (sid :: queue))
    with (match buzzer_view room sid with
          | Some b => b :: omap (buzzer_view room) queue
          | None => omap (buzzer_view room) queue
          end).
  unfold buzzer_view at 1.
  destruct (dict_get sid (players room)) as [p|] eqn:Hp.
  - rewrite decide_True by eauto. rewrite fmap_cons. by rewrite IH.
  - rewrite decide_False by (by intros [? ?]). exact IH.
Qed.

(** X21. The buzz queue of a room view lists, in queue order, the queued
    connections that still have a player entry, each with the name of its
    entry; a connection whose player has left stays in the room's queue
    but is not shown, and it is not shown as current buzzer either. *)
Theorem room_view_shows_queued_players_only (st : State) (code : string)
    (room : Room) (for_host : bool) :
  rooms st !! code = Some room →
  ∃ view,
    get_room_state st code for_host = Some view
    ∧ bv_id <$> rv_buzzQueue view
      = filter (λ sid, is_Some (dict_get sid (players room)))
          (buzz_queue room)
    ∧ (∀ b, b ∈ rv_buzzQueue view →
         name <$> dict_get (bv_id b) (players room) = Some (bv_name b))
    ∧ (∀ b, rv_currentBuzzer view = Some b →
         current_buzzer room = Some (bv_id b)
         ∧ name <$> dict_get (bv_id b) (players room) = Some (bv_name b))
    ∧ (∀ sid, current_buzzer room = Some sid →
         dict_get sid (players room) = None →
         rv_currentBuzzer view = None).
Proof.
  intros Hr. exists (room_view code room for_host).
  unfold get_room_state. rewrite Hr. simpl.
  split; [done|]. split; [apply omap_buzzer_view_ids|].
  split.
  { intros b (sid & Hin & Hb)%list_elem_of_omap. unfold buzzer_view in Hb.
    destruct (dict_get sid (players room)) as [p|] eqn:Hp; [|done].
    injection Hb as <-. simpl. by rewrite Hp. }
  split.
  { intros b. destruct (current_buzzer room) as [sid|]; [|done].
    destruct (str_truthy sid); [|done]. unfold buzzer_view.
    destruct (dict_get sid (players room)) as [p|] eqn:Hp; [|done].
    intros [= <-]. simpl. by rewrite Hp. }
  intros sid -> Hnone. destruct (str_truthy sid); [|done].
  unfold buzzer_view. by rewrite Hnone.
Qed.

(** Alice buzzed first and has left: the room's queue is a, b, but the
    view shows Bob only and no current buzzer. *)
Lemma room_view_shows_queued_players_only_witness :
  let room := playing [("b", player0 "Bob")] ["a"; "b"] ∅ in
  let st := single_room room ["b"] in
  ∃ view,
    get_room_state st "ROOM01" false = Some view
    ∧ rv_buzzQueue view = [{| bv_id := "b"; bv_name := "Bob" |}]
    ∧ rv_currentBuzzer view = None.
Proof.
  intros room st.
  destruct (room_view_shows_queued_players_only st "ROOM01" room false)
    as (view & Hview & _ & _ & _ & Hnone); [reflexivity|].
  exists view. split; [exact Hview|].
  split; [|by apply (Hnone "a")].
  vm_compute in Hview. by injection Hview as <-.
Defined.

(** *** A player loses the connection and comes back *)





(** *** The number of player entries *)

Lemma dict_set_length_le {V} (k : string) (v : V) (d : list (string * V)) :
  (length (dict_set k v d) ≤ S (length d))%nat.
Proof.
  induction d as [|[k' v'] d IH]; simpl; [lia|].
  destruct (decide (k' = k)); simpl; lia.
Qed.

Lemma dict_set_length_present {V} (k : string) (v : V)
    (d : list (string * V)) :
  is_Some (dict_get k d) → length (dict_set k v d) = length d.
Proof.
  induction d as [|[k' v'] d IH]; simpl; [by intros [? ?]|].
  destruct (decide (k' = k)); simpl; [done|]. intros H. by rewrite IH.
Qed.

Lemma dict_del_length_le {V} (k : string) (d : list (string * V)) :
  (length (dict_del k d) ≤ length d)%nat.
Proof.
  induction d as [|[k' v'] d IH]; simpl; [lia|].
  destruct (decide (k' = k)); simpl; lia.
Qed.

Lemma dict_del_length_present {V} (k : string) (d : list (string * V)) :
  is_Some (dict_get k d) → (length (dict_del k d) < length d)%nat.
Proof.
  induction d as [|[k' v'] d IH]; simpl; [by intros [? ?]|].
  destruct (decide (k' = k)); simpl.
  - intros _. pose proof (dict_del_length_le k d). lia.
  - intros H. specialize (IH H). lia.
Qed.

Lemma at_most_eight_set_room (code : string) (r : Room) (st : State) :
  at_most_eight_players st →
  (length (players r) ≤ 8)%nat →
  at_most_eight_players (set_room code r st).
Proof.
  intros Hst Hr code' r'. unfold set_room. simpl.
  rewrite lookup_insert. case_decide; [by intros [= <-] | apply Hst].
Qed.

Ltac size_cases Hinv :=
  repeat case_match; simpl in *; try exact Hinv;
  try (apply at_most_eight_set_room; [exact Hinv|]);
  try match goal with
  | Hr : rooms _ !! _ = Some ?r |- _ =>
      let Hsz := fresh "Hsz" in
      pose proof (Hinv _ _ Hr) as Hsz
  end;
  simplify_eq/=; try done.

Section sizes.
Variables str_upper str_lower str_strip : string → string.
Variable songs : list Song.

Lemma handle_at_most_eight (st : State) (ev : Event) (out : Outcome) :
  at_most_eight_players st →
  handle str_upper str_lower str_strip songs st ev = Some out →
  at_most_eight_players (post out).
Proof.
  intros Hinv Hout. destruct ev; simpl in Hout.
  all: try (injection Hout as <-).
  - unfold handle_disconnect. size_cases Hinv.
    by rewrite dict_set_length_present by eauto.
  - unfold handle_create_room in Hout. case_match; [|done].
    injection Hout as <-. simpl.
    apply (at_most_eight_set_room _ _ st Hinv). simpl. lia.
  - unfold handle_join_room, join_new_player, joined. size_cases Hinv.
    + rewrite rejoin_player_fields. simpl.
      match goal with
      | H : dict_get ?old (players ?r) = Some _
        |- (length (dict_set ?new ?v (dict_del ?old (players ?r))) ≤ 8)%nat =>
          pose proof (dict_set_length_le new v (dict_del old (players r)));
          pose proof (dict_del_length_present old (players r)
                        (mk_is_Some _ _ H))
      end. lia.
    + match goal with H : _ = false |- _ =>
        apply (proj1 (Nat.leb_gt 8 _)) in H end.
      match goal with |- (length (dict_set ?k ?v ?d) ≤ 8)%nat =>
        pose proof (dict_set_length_le k v d) end. lia.
    + match goal with H : _ = false |- _ =>
        apply (proj1 (Nat.leb_gt 8 _)) in H end.
      match goal with |- (length (dict_set ?k ?v ?d) ≤ 8)%nat =>
        pose proof (dict_set_length_le k v d) end. lia.
  - unfold handle_leave_room. size_cases Hinv.
    match goal with |- (length (dict_del ?k ?d) ≤ 8)%nat =>
      pose proof (dict_del_length_le k d) end. lia.
  - unfold handle_start_game. size_cases Hinv.
  - unfold handle_start_round. size_cases Hinv.
  - unfold handle_buzz. size_cases Hinv.
  - unfold handle_judge. size_cases Hinv.
    all: by rewrite dict_set_length_present by eauto.
  - unfold handle_skip_round. size_cases Hinv.
  - unfold handle_end_game. size_cases Hinv.
  - unfold handle_host_rejoin. size_cases Hinv.
  - unfold handle_get_room_state. size_cases Hinv.
Qed.

(** X14. In every state the server can reach, every room has at most
    eight player entries, disconnected players included. *)
Theorem reachable_at_most_eight_players (st : State) (code : string)
    (room : Room) :
  reachable str_upper str_lower str_strip songs st →
  rooms st !! code = Some room →
  (length (players room) ≤ 8)%nat.
Proof.
  intros [evs Hrun] Hr.
  assert (∀ evs st0 st1,
            at_most_eight_players st0 →
            run str_upper str_lower str_strip songs st0 evs = Some st1 →
            at_most_eight_players st1) as Hruns.
  { clear. induction evs as [|ev evs IH]; simpl; intros st0 st1 Hinv.
    - by intros [= <-].
    - destruct (handle _ _ _ _ st0 ev) as [out|] eqn:Hout; [|done].
      apply IH. by apply (handle_at_most_eight st0 ev). }
  apply (Hruns evs initial_state st) with (code := code); [|done..].
  intros c r. unfold initial_state. simpl. by rewrite lookup_empty.
Qed.
End sizes.

(** *** Scores *)

Lemma scores_kept_refl (ps : list (string * Player)) : scores_kept ps ps.
Proof. intros sid p Hp. rewrite Hp. lia. Qed.

Lemma scores_kept_set (ps : list (string * Player)) (k : string) (v : Player) :
  (∀ p, dict_get k ps = Some p → score p ≤ score v) →
  scores_kept ps (dict_set k v ps).
Proof.
  intros Hk sid p Hp. destruct (decide (k = sid)) as [->|Hne].
  - rewrite dict_get_set_eq. by apply Hk.
  - rewrite dict_get_set_ne by done. rewrite Hp. lia.
Qed.

Lemma scores_kept_del (ps : list (string * Player)) (k : string) :
  scores_kept ps (dict_del k ps).
Proof.
  intros sid p Hp. destruct (decide (k = sid)) as [->|Hne].
  - by rewrite dict_get_del_eq.
  - rewrite dict_get_del_ne by done. rewrite Hp. lia.
Qed.

Lemma scores_kept_rejoin (ps : list (string * Player)) (new old : string)
    (v : Player) :
  dict_get new ps = None →
  scores_kept ps (dict_set new v (dict_del old ps)).
Proof.
  intros Hnew sid p Hp. destruct (decide (new = sid)) as [->|Hne].
  - congruence.
  - rewrite dict_get_set_ne by done. by apply scores_kept_del.
Qed.

Lemma scores_kept_set_room (st : State) (c code : string) (r0 r room : Room) :
  rooms st !! c = Some r0 →
  rooms st !! code = Some room →
  scores_kept (players r0) (players r) →
  ∃ room', rooms (set_room c r st) !! code = Some room'
           ∧ scores_kept (players room) (players room').
Proof.
  intros Hc Hcode Hp. unfold set_room. simpl.
  destruct (decide (c = code)) as [->|Hne].
  - rewrite lookup_insert_eq. exists r. split; [done|].
    rewrite Hc in Hcode. by injection Hcode as <-.
  - rewrite lookup_insert_ne by done. exists room.
    split; [done | apply scores_kept_refl].
Qed.

Ltac scores_cases :=
  repeat case_match; simpl;
  try (eexists; split; [eassumption | apply scores_kept_refl]);
  try (eapply scores_kept_set_room; [eassumption | eassumption |]);
  simplify_eq/=; try apply scores_kept_refl.

(** X15. No event lowers the score of a player entry, as long as a
    [join_room] comes from a connection that does not already occur in
    the room: after the event the entry is gone (the player left, or
    the entry moved to a rejoining connection) or has at least the score
    it had. *)
Theorem scores_never_decrease
    (str_upper str_lower str_strip : string → string) (songs : list Song)
    (st : State) (ev : Event) (out : Outcome) (code : string) (room : Room) :
  handle str_upper str_lower str_strip songs st ev = Some out →
  fresh_join str_upper st ev →
  rooms st !! code = Some room →
  ∃ room', rooms (post out) !! code = Some room'
           ∧ scores_kept (players room) (players room').
Proof.
  intros Hout Hfresh Hr. destruct ev; simpl in Hout, Hfresh.
  all: try (injection Hout as <-).
  - unfold handle_disconnect. scores_cases.
    apply scores_kept_set. intros q Hq. simplify_eq/=. lia.
  - unfold handle_create_room in Hout. case_match eqn:Hg; [|done].
    injection Hout as <-. simpl.
    apply generate_room_code_spec in Hg as [Hfree _].
    rewrite lookup_insert_ne by (intros ->; congruence).
    exists room. split; [done | apply scores_kept_refl].
  - unfold handle_join_room, join_new_player, joined. scores_cases.
    + rewrite rejoin_player_fields. simpl. apply scores_kept_rejoin.
      apply dict_get_None_keys. intros Hk. eapply Hfresh; [done | by left].
    + apply scores_kept_set. intros q Hq. exfalso.
      eapply Hfresh; [done|]. left. apply dec_stable. intros Hk.
      apply dict_get_None_keys in Hk. congruence.
    + apply scores_kept_set. intros q Hq. exfalso.
      eapply Hfresh; [done|]. left. apply dec_stable. intros Hk.
      apply dict_get_None_keys in Hk. congruence.
  - unfold handle_leave_room. scores_cases. apply scores_kept_del.
  - unfold handle_start_game. scores_cases.
  - unfold handle_start_round. scores_cases.
  - unfold handle_buzz. scores_cases.
  - unfold handle_judge. scores_cases.
    all: apply scores_kept_set; intros q Hq; simplify_eq/=.
    all: repeat case_match; lia.
  - unfold handle_skip_round. scores_cases.
  - unfold handle_end_game. scores_cases.
  - unfold handle_host_rejoin. scores_cases.
  - unfold handle_get_room_state. scores_cases.
Qed.

(** X20. Without that condition a score can drop: when a connection that
    has a player entry joins the room again, under a name that matches no
    disconnected player and while the room has fewer than eight entries,
    its entry is replaced by a new one with that name and score 0. *)
Theorem second_join_resets_score
    (str_upper str_lower str_strip : string → string)
    (st : State) (sid : string) (roomCode playerName : option string)
    (room : Room) (p : Player) :
  let room_code := str_upper (default "" roomCode) in
  let player_name := str_strip (default "" playerName) in
  room_code ≠ "" →
  player_name ≠ "" →
  rooms st !! room_code = Some room →
  game_ended room = false →
  find_existing str_lower (players room) player_name = None →
  dict_get sid (players room) = Some p →
  (length (players room) < 8)%nat →
  let out :=
    handle_join_room str_upper str_lower str_strip st sid roomCode playerName
  in
  ∃ room',
    rooms (post out) !! room_code = Some room'
    ∧ dict_get sid (players room')
      = Some {| name := player_name; score := 0; connected := true |}
    ∧ length (players room') = length (players room).
Proof.
  intros room_code player_name Hc Hn Hr Hge Hfind Hp Hlen out.
  subst out. unfold handle_join_room. fold room_code player_name.
  rewrite (str_truthy_ne _ Hc), (str_truthy_ne _ Hn), Hr, Hge, Hfind. simpl.
  unfold join_new_player. rewrite (proj2 (Nat.leb_gt _ _) Hlen).
  unfold joined. simpl. eexists. split; [apply lookup_insert_eq|]. simpl.
  split; [apply dict_get_set_eq | by apply dict_set_length_present].
Qed.

(** *** Who receives the current song in a [room_state] *)

Lemma broadcast_song_goes_to_host (st st' : State) (sender code : string) :
  Forall (song_goes_to_host st sender) (broadcast_room_state st' code).
Proof.
  unfold broadcast_room_state, get_room_state.
  destruct (rooms st' !! code) as [room|].
  - apply Forall_cons. split; [by intros H|].
    apply Forall_cons. split; [intros _; by left | apply Forall_nil_2].
  - by repeat (apply Forall_cons; split; [exact I|]).
Qed.

Ltac song_cases :=
  repeat case_match; simpl;
  rewrite ?Forall_app, ?Forall_cons;
  repeat split;
  try apply broadcast_song_goes_to_host;
  try apply Forall_nil_2;
  try exact I.

(** X16. Whatever the event, a [room_state] whose view carries the
    current song is only ever emitted to the host room of that room, or
    as the answer to a [get_room_state] of the room's host. *)
Theorem room_state_with_song_goes_to_host
    (str_upper str_lower str_strip : string → string) (songs : list Song)
    (st : State) (ev : Event) (out : Outcome) :
  handle str_upper str_lower str_strip songs st ev = Some out →
  Forall (song_goes_to_host st (event_sid ev)) (effects out).
Proof.
  intros Hout. destruct ev; simpl in Hout.
  all: try (injection Hout as <-).
  - unfold handle_disconnect. song_cases.
  - unfold handle_create_room in Hout. case_match; [|done].
    injection Hout as <-. song_cases.
  - unfold handle_join_room, join_new_player, joined. song_cases.
  - unfold handle_leave_room. song_cases.
  - unfold handle_start_game. song_cases.
  - unfold handle_start_round. song_cases.
  - unfold handle_buzz. song_cases.
  - unfold handle_judge. song_cases.
  - unfold handle_skip_round. song_cases.
  - unfold handle_end_game. song_cases.
  - unfold handle_host_rejoin. song_cases.
  - unfold handle_get_room_state, get_room_state. song_cases.
    all: simplify_eq/=; try done.
    intros _. right. split; [done|]. eauto.
Qed.

(** A buzz during a round on [song_a]: the view sent to the room has no
    song, the one sent to the host room has it. *)
Lemma room_state_with_song_goes_to_host_witness :
  let st :=
    single_room (playing [("a", player0 "Alice")] [] ∅) ["a"] in
  Forall (song_goes_to_host st "a") (effects (handle_buzz st "a"))
  ∧ omap (λ e, match e with
                | Emit (Ev_room_state (Some v)) (ToGroup g) =>
                    Some (g, rv_currentSong v)
                | _ => None
                end) (effects (handle_buzz st "a"))
    = [ ("ROOM01", None); ("ROOM01_host", Some song_a) ].
Proof.
  intros st. split; [|vm_compute; reflexivity].
  apply (room_state_with_song_goes_to_host ascii_upper ascii_lower ascii_strip
           catalog st (Buzz "a")).
  reflexivity.
Defined.

(** *** Who receives the song *)

Lemma broadcast_song_kept_secret (st st' : State) (sender code : string) :
  rooms st' = rooms st →
  Forall (song_kept_secret st' sender) (broadcast_room_state st code).
Proof.
  intros Hrooms. unfold broadcast_room_state, get_room_state.
  destruct (rooms st !! code) as [room|] eqn:Hr.
  - apply Forall_cons. split; [by intros H|].
    apply Forall_cons. split; [|apply Forall_nil_2].
    intros _. exists code, room. rewrite Hrooms. split; [done | by left].
  - by repeat (apply Forall_cons; split; [intros []|]).
Qed.

Ltac secret_cases :=
  repeat case_match; simpl;
  rewrite ?Forall_app, ?Forall_cons;
  repeat split;
  try (apply broadcast_song_kept_secret; reflexivity);
  try apply Forall_nil_2;
  try exact I;
  try (by intros []).

(** X17. Whatever the event, a message that carries the record of the
    song ([room_state] or [host_rejoined] with the song in the view,
    [round_started] with the song, [judge_result] or [round_skipped] with
    the song) is emitted only to the host room of a room, or to the
    requesting connection when it is the host, or to the players of a room
    whose round is over when the handler returns. *)
Theorem song_is_kept_from_players_during_round
    (str_upper str_lower str_strip : string → string) (songs : list Song)
    (st : State) (ev : Event) (out : Outcome) :
  handle str_upper str_lower str_strip songs st ev = Some out →
  Forall (song_kept_secret (post out) (event_sid ev)) (effects out).
Proof.
  intros Hout. destruct ev; simpl in Hout.
  all: try (injection Hout as <-).
  - unfold handle_disconnect. secret_cases.
  - unfold handle_create_room in Hout. case_match; [|done].
    injection Hout as <-. secret_cases.
  - unfold handle_join_room, join_new_player, joined. secret_cases.
  - unfold handle_leave_room. secret_cases.
  - unfold handle_start_game. secret_cases.
  - unfold handle_start_round. secret_cases.
    all: intros _; eexists _, _; (split; [apply lookup_set_room | by left]).
  - unfold handle_buzz. secret_cases.
  - unfold handle_judge. secret_cases.
    all: intros [song Hsong]; simplify_eq/=.
    all: eexists _, _; (split; [apply lookup_set_room|]).
    all: right; right; split; [done|]; by repeat case_match.
  - unfold handle_skip_round. secret_cases.
    all: intros Hrev; eexists _, _; (split; [apply lookup_set_room|]).
    all: right; right; by split.
  - unfold handle_end_game. secret_cases.
  - unfold handle_host_rejoin, get_room_state. secret_cases.
    all: simplify_eq/=.
    all: try (rewrite lookup_insert_eq in *; simplify_eq/=).
    intros _. eexists _, _. split; [apply lookup_insert_eq|].
    right; left. by split.
  - unfold handle_get_room_state, get_room_state. secret_cases.
    all: simplify_eq/=; try done.
    intros _. eexists _, _. split; [eassumption|]. right; left. by split.
Qed.

Lemma song_is_kept_from_players_during_round_witness :
  let st := single_room (lobby [("a", player0 "Alice")]) ["a"] in
  let out := handle_start_round catalog st "h" 1 in
  Forall (song_kept_secret (post out) "h") (effects out)
  ∧ omap (λ e, match e with
                | Emit (Ev_round_started song) to => Some (song, to)
                | _ => None
                end) (effects out)
    = [ (song_b, ToGroup "ROOM01_host") ].
Proof.
  intros st out. split; [|vm_compute; reflexivity].
  apply (song_is_kept_from_players_during_round
           ascii_upper ascii_lower ascii_strip catalog st (StartRound "h" 1)).
  reflexivity.
Defined.

(** *** Error answers *)

(** X18. An [error] event is only ever emitted to the requesting
    connection, and a handler that emits one has changed nothing, with
    one exception: [start_round] with an empty catalog has cleared
    [used_song_ids] of the room before it answers that no songs are
    available. *)
Theorem errors_go_to_sender_and_change_nothing
    (str_upper str_lower str_strip : string → string) (songs : list Song)
    (st : State) (ev : Event) (out : Outcome)
    (message : ErrorMessage) (to : Target) :
  handle str_upper str_lower str_strip songs st ev = Some out →
  Emit (Ev_error message) to ∈ effects out →
  to = ToSender
  ∧ (post out = st
     ∨ (message = ErrNoSongsAvailable
        ∧ ∃ code room,
            rooms st !! code = Some room
            ∧ post out = set_room code (with_used_song_ids ∅ room) st)).
Proof.
  intros Hout Hin.
  assert (∀ st' c, Emit (Ev_error message) to ∉ broadcast_room_state st' c)
    as Hbroadcast.
  { intros st' c. unfold broadcast_room_state.
    rewrite !not_elem_of_cons. repeat split; try done. apply not_elem_of_nil. }
  destruct ev; simpl in Hout.
  all: try (injection Hout as <-).
  all: try (unfold handle_create_room in Hout; case_match; [|done];
            injection Hout as <-).
  all: revert Hin;
    unfold handle_disconnect, handle_join_room, join_new_player, joined,
      handle_leave_room, handle_start_game, handle_start_round, handle_buzz,
      handle_judge, handle_skip_round, handle_end_game, handle_host_rejoin,
      handle_get_room_state;
    repeat case_match; simpl;
    rewrite ?elem_of_app, ?elem_of_cons, ?elem_of_nil;
    intros Hin;
    repeat match goal with
    | H : _ ∨ _ |- _ => destruct H as [H|H]
    end;
    try done;
    try (by destruct (Hbroadcast _ _ Hin));
    simplify_eq/=.
  all: try (split; [done|]; by left).
  all: split; [done|]; right; split; [done|]; eauto.
Qed.

(** A ninth player is refused: the error goes to the sender and the state
    is unchanged. *)
Lemma errors_go_to_sender_and_change_nothing_witness :
  let out :=
    handle_join_room ascii_upper ascii_lower ascii_strip full_state "x"
      (Some "room01") (Some "Yan") in
  effects out = [Emit (Ev_error ErrRoomFull) ToSender]
  ∧ post out = full_state.
Proof.
  intros out.
  destruct (errors_go_to_sender_and_change_nothing
              ascii_upper ascii_lower ascii_strip catalog full_state
              (JoinRoom "x" (Some "room01") (Some "Yan")) out
              ErrRoomFull ToSender) as [_ [Hpost | [Hmsg _]]];
    [reflexivity | vm_compute; left | | discriminate Hmsg].
  split; [reflexivity | exact Hpost].
Defined.

(** *** [start_game] *)

(** X19. [start_game] by the host of a room: with no player entry it
    answers with an error and changes nothing; with at least one entry,
    connected or not, it sets [game_started] and changes nothing else,
    whether or not the game had been started or ended before. *)
Theorem start_game_needs_a_player_entry (st : State) (host code : string)
    (room : Room) :
  player_sessions st !! host = Some code →
  rooms st !! code = Some room →
  host_sid room = host →
  let out := handle_start_game st host in
  (players room = [] →
   out = done st [Emit (Ev_error ErrNeedOnePlayer) ToSender])
  ∧ (players room ≠ [] →
     post out = set_room code (with_game_started true room) st
     ∧ Emit Ev_game_started (ToGroup code) ∈ effects out).
Proof.
  intros Hs Hr Hh out. subst out. unfold handle_start_game.
  rewrite Hs, Hr. rewrite decide_False by (intros H; by apply H).
  destruct (players room) as [|e ps]; simpl.
  - split; [done | by intros []].
  - split; [done|]. intros _. split; [done | left].
Qed.

Lemma start_game_needs_a_player_entry_witness :
  let ghost := [("a", with_connected false (player0 "Alice"))] in
  handle_start_game (single_room (lobby []) []) "h"
  = done (single_room (lobby []) [])
      [Emit (Ev_error ErrNeedOnePlayer) ToSender]
  ∧ post (handle_start_game (single_room (lobby ghost) []) "h")
    = single_room (with_game_started true (lobby ghost)) [].
Proof.
  intros ghost. split.
  - apply (start_game_needs_a_player_entry (single_room (lobby []) []) "h"
             "ROOM01" (lobby [])); reflexivity.
  - destruct (start_game_needs_a_player_entry
                (single_room (lobby ghost) []) "h" "ROOM01" (lobby ghost))
      as [_ Hok]; [reflexivity..|].
    destruct Hok as [Hpost _]; [done|]. rewrite Hpost. reflexivity.
Defined.

(** *** The invariants on concrete event sequences *)

(** After [end_game_with_buzzer] a judgment with zero points takes Alice
    off the queue without an exception. *)
Lemma reachable_no_exception_witness :
  raised (handle_judge ended_state "h" (Some false) (Some false)) = None.
Proof.
  apply (reachable_no_exception ascii_upper ascii_lower ascii_strip catalog
           ended_state (Judge "h" (Some false) (Some false))).
  - exists end_game_with_buzzer. vm_compute. reflexivity.
  - reflexivity.
Defined.

Lemma reachable_current_buzzer_is_head_witness :
  head (buzz_queue ended_room) = Some "a" ∧ "a" ∈ buzz_queue ended_room.
Proof.
  apply (reachable_current_buzzer_is_head
           ascii_upper ascii_lower ascii_strip catalog
           ended_state "AAAAAA" ended_room "a").
  - exists end_game_with_buzzer. vm_compute. reflexivity.
  - reflexivity.
  - reflexivity.
Defined.

(** After Alice has won, the host cannot start a round and Bob cannot
    buzz. *)
Lemma ended_game_refuses_start_round_and_buzz_witness :
  handle_start_round catalog won_state "h" 0 = done won_state []
  ∧ handle_buzz won_state "b" = done won_state [].
Proof.
  assert (reachable ascii_upper ascii_lower ascii_strip catalog won_state)
    as Hreach.
  { exists alice_wins. vm_compute. reflexivity. }
  split.
  - apply (ended_game_refuses_start_round_and_buzz
             ascii_upper ascii_lower ascii_strip catalog
             won_state "h" won_room 0 Hreach); reflexivity.
  - apply (ended_game_refuses_start_round_and_buzz
             ascii_upper ascii_lower ascii_strip catalog
             won_state "b" won_room 0 Hreach); reflexivity.
Defined.

(** After [two_buzzes] Alice is the current buzzer, queued and not locked
    out. *)
Lemma current_buzzer_not_locked_out_with_fresh_joins_witness :
  run_ascii initial_state two_buzzes = Some two_buzzes_state
  ∧ "a" ∈ buzz_queue two_buzzes_room
  ∧ "a" ∉ locked_out two_buzzes_room.
Proof.
  assert (run_ascii initial_state two_buzzes = Some two_buzzes_state) as Hrun
    by (vm_compute; reflexivity).
  split; [exact Hrun|].
  apply (current_buzzer_not_locked_out_with_fresh_joins
           ascii_upper ascii_lower ascii_strip catalog two_buzzes
           two_buzzes_state "AAAAAA" two_buzzes_room "a" Hrun).
  - unfold two_buzzes. repeat fresh_joins_step. exact I.
  - reflexivity.
  - reflexivity.
Defined.

(** The ninth join is refused: the room has eight entries. *)
Lemma reachable_at_most_eight_players_witness :
  run_ascii initial_state nine_joins = Some eight_joined_state
  ∧ (length (players eight_joined_room) ≤ 8)%nat.
Proof.
  assert (run_ascii initial_state nine_joins = Some eight_joined_state)
    as Hrun by (vm_compute; reflexivity).
  split; [exact Hrun|].
  apply (reachable_at_most_eight_players
           ascii_upper ascii_lower ascii_strip catalog
           eight_joined_state "AAAAAA" eight_joined_room).
  - exists nine_joins. exact Hrun.
  - reflexivity.
Defined.

(** A right answer raises Alice's score and leaves Bob's. *)
Lemma scores_never_decrease_witness :
  let ps := [ ("a", with_score 4 (player0 "Alice"));
              ("b", with_score 7 (player0 "Bob")) ] in
  let room := playing ps ["a"] ∅ in
  let st := single_room room ["a"; "b"] in
  ∃ room',
    rooms (post (handle_judge st "h" (Some true) None)) !! "ROOM01"
    = Some room'
    ∧ scores_kept ps (players room').
Proof.
  intros ps room st.
  apply (scores_never_decrease ascii_upper ascii_lower ascii_strip catalog
           st (Judge "h" (Some true) None)
           (handle_judge st "h" (Some true) None) "ROOM01" room);
    [reflexivity | exact I | reflexivity].
Defined.

(** Alice, with 3 points, joins again as ["Alicia"] and is back at 0. *)
Lemma second_join_resets_score_witness :
  let st :=
    single_room (lobby [("a", with_score 3 (player0 "Alice"))]) ["a"] in
  let out :=
    handle_join_room ascii_upper ascii_lower ascii_strip st "a"
      (Some "ROOM01") (Some "Alicia") in
  ∃ room',
    rooms (post out) !! "ROOM01" = Some room'
    ∧ dict_get "a" (players room') = Some (player0 "Alicia").
Proof.
  intros st out.
  destruct (second_join_resets_score ascii_upper ascii_lower ascii_strip
              st "a" (Some "ROOM01") (Some "Alicia")
              (lobby [("a", with_score 3 (player0 "Alice"))])
              (with_score 3 (player0 "Alice")))
    as (room' & Hr' & Hget & _);
    [done | done | reflexivity | reflexivity | reflexivity | reflexivity
     | simpl; lia |].
  exists room'. split; [exact Hr' | exact Hget].
Defined.
